(** * scripts/generate_summaries.py: the 40-character summary generator

    A shallow embedding of the script and the properties of its summarizer,
    batch driver, checkpoint store and output writer.

    Modelling conventions.
    - A Python [str] is a list of Unicode code points ([pystr]); [len] is
      [length], [s[:n]] is [firstn n s], [s[n:]] is [skipn n s].
    - A Python [dict] is an association list in insertion order ([pydict]);
      [d[k] = v] is [dict_set], which overwrites in place or appends.
    - A decoded JSON document is a [json] value; operations that Python
      checks at run time ([len], slicing, [+], [.get], [[...]]) return in the
      [res] monad and raise the exception CPython raises.
    - [json.loads] is library code: the summarizer is parametric in the
      decoder, and [JsonDecoder.json_loads] is a reference decoder used for
      the closed examples.
    - The raw dump is a list of badges with their versions and
      requirements, names and numbers being strings; the checkpoint file,
      when there is one, holds a JSON object, whose values are arbitrary.
    - An exception is an instance of [Exception], what [except Exception]
      catches, known by its message.
    - [print], [time.sleep] and the file system are assumed not to fail;
      what is printed is not part of the state, but the evaluation of a
      printed expression is, since it can raise.  In particular [print] is
      taken to encode what it is given: a lone surrogate in a badge name
      or in a summary, which would make lines 162 and 167 raise
      [UnicodeEncodeError], is outside the model.  The checkpoint file
      holds the mapping itself ([json.dump] followed by [json.load] is the
      identity on it).
    - A save is one step: the file goes from the mapping of the previous
      save to the mapping of this one, and the states of a run are those
      between two statements of the driver.  While lines 66-67 rewrite the
      file it is truncated and then filled; no state of the model lies
      inside that window.
    - [main] is the function of lines 130-217.  The import guard of lines
      19-23, which exits with 1 when the package [anthropic] is missing,
      runs when the module is loaded, before [main], and is not part of
      it; the dump is taken to exist and to decode to the typed shape
      above, so that lines 35-36 do not raise. *)

From Stdlib Require Import String Ascii DecimalString.
From Stdlib Require Import List NArith ZArith Bool Arith Lia.
From Stdlib Require Import Floats.SpecFloat.
Import ListNotations.

Local Open Scope list_scope.

(* ------------------------------------------------------------------ *)
(** * Python strings *)

Module PyStr.

Definition pystr := list N.

(** Code points of an ASCII literal. *)
Definition u (s : string) : pystr := map N_of_ascii (list_ascii_of_string s).

Definition DQUOTE : N := 34.
Definition NEWLINE : N := 10.
Definition BACKTICK : N := 96.
(** U+2026 HORIZONTAL ELLIPSIS, the one character of the literal "…". *)
Definition ELLIPSIS : N := 8230.

Definition quoted (s : pystr) : pystr := DQUOTE :: s ++ [DQUOTE].

Fixpoint str_eqb (a b : pystr) : bool :=
  match a, b with
  | [], [] => true
  | x :: a', y :: b' => N.eqb x y && str_eqb a' b'
  | _, _ => false
  end.

(** [s.startswith(p)] *)
Fixpoint startswith (s p : pystr) : bool :=
  match p, s with
  | [], _ => true
  | y :: p', x :: s' => N.eqb x y && startswith s' p'
  | _ :: _, [] => false
  end.

(** [str.isspace] on one character (Unicode White_Space plus the
    information separators U+001C..U+001F). *)
Definition isspace (c : N) : bool :=
  ((9 <=? c) && (c <=? 13) || (28 <=? c) && (c <=? 32)
   || (c =? 133) || (c =? 160) || (c =? 5760)
   || (8192 <=? c) && (c <=? 8202)
   || (c =? 8232) || (c =? 8233) || (c =? 8239) || (c =? 8287)
   || (c =? 12288))%N.

Fixpoint lstrip (s : pystr) : pystr :=
  match s with
  | c :: s' => if isspace c then lstrip s' else s
  | [] => []
  end.

Definition rstrip (s : pystr) : pystr := rev (lstrip (rev s)).

(** [s.strip()] *)
Definition strip (s : pystr) : pystr := rstrip (lstrip s).

(** [s.split(sep)] for a non-empty [sep]: left to right, occurrences do not
    overlap.  [skip] counts the characters of a matched separator that are
    still to be dropped; [cur] is the current piece, reversed. *)
Fixpoint split_from (sep : pystr) (skip : nat) (cur s : pystr) : list pystr :=
  match s with
  | [] => [rev cur]
  | c :: s' =>
      match skip with
      | S k => split_from sep k cur s'
      | O =>
          if startswith s sep
          then rev cur :: split_from sep (length sep - 1) [] s'
          else split_from sep 0 (c :: cur) s'
      end
  end.

Definition split (s sep : pystr) : list pystr := split_from sep 0 [] s.

(** Decimal rendering of a natural number, as [str(n)]. *)
Definition str_of_nat (n : nat) : pystr :=
  u (NilEmpty.string_of_uint (Nat.to_uint n)).

End PyStr.
Export PyStr.

(* ------------------------------------------------------------------ *)
(** * Python dicts, JSON values, exceptions *)

Module PyDict.

Definition pydict (V : Type) := list (pystr * V).

Section Dict.
Context {V : Type}.

(** [d.get(k)] *)
Fixpoint dict_get (d : pydict V) (k : pystr) : option V :=
  match d with
  | [] => None
  | (k', v) :: d' => if str_eqb k' k then Some v else dict_get d' k
  end.

(** [k in d] *)
Definition dict_mem (d : pydict V) (k : pystr) : bool :=
  match dict_get d k with Some _ => true | None => false end.

(** [d[k] = v] *)
Fixpoint dict_set (d : pydict V) (k : pystr) (v : V) : pydict V :=
  match d with
  | [] => [(k, v)]
  | (k', v') :: d' =>
      if str_eqb k' k then (k', v) :: d' else (k', v') :: dict_set d' k v
  end.

Definition dict_keys (d : pydict V) : list pystr := map fst d.

(** What every dict built by Python satisfies: keys are pairwise distinct. *)
Definition dict_wf (d : pydict V) : Prop := NoDup (dict_keys d).

End Dict.

End PyDict.
Export PyDict.

#[local] Unset Elimination Schemes.
Inductive json : Type :=
| JNull
| JBool (b : bool)
| JInt (z : Z)
| JFloat (f : spec_float)
| JStr (s : pystr)
| JList (l : list json)
| JDict (d : list (pystr * json)).
#[local] Set Elimination Schemes.

(** An exception, by the text [str(e)] gives. *)
Definition exn := pystr.

Inductive res (A : Type) : Type :=
| Ok (a : A)
| Raise (e : exn).
Arguments Ok {A} a.
Arguments Raise {A} e.

Definition bind {A B} (r : res A) (f : A -> res B) : res B :=
  match r with
  | Ok a => f a
  | Raise e => Raise e
  end.

Declare Scope py_scope.
Delimit Scope py_scope with py.
Notation "x <- c ;; k" := (bind c (fun x => k))
  (at level 61, c at next level, right associativity) : py_scope.
Local Open Scope py_scope.

Module PyObj.

(** [type(v).__name__] *)
Definition type_name (v : json) : pystr :=
  match v with
  | JNull => u "NoneType"
  | JBool _ => u "bool"
  | JInt _ => u "int"
  | JFloat _ => u "float"
  | JStr _ => u "str"
  | JList _ => u "list"
  | JDict _ => u "dict"
  end.

(** Truth value of an object, as [if v:] and [not v] test it. *)
Definition truthy (v : json) : bool :=
  match v with
  | JNull => false
  | JBool b => b
  | JInt z => negb (Z.eqb z 0)
  | JFloat (S754_zero _) => false
  | JFloat _ => true
  | JStr s => negb (Nat.eqb (length s) 0)
  | JList l => negb (Nat.eqb (length l) 0)
  | JDict d => negb (Nat.eqb (length d) 0)
  end.

(** [len(v)] *)
Definition py_len (v : json) : res nat :=
  match v with
  | JStr s => Ok (length s)
  | JList l => Ok (length l)
  | JDict d => Ok (length d)
  | _ => Raise (u "object of type '" ++ type_name v ++ u "' has no len()")
  end.

(** [v[:n]]; slicing a dict looks the slice object up as a key, which
    raises (the [TypeError] of CPython up to 3.11 is taken; from 3.12 on it
    is a [KeyError]). *)
Definition py_slice_to (n : nat) (v : json) : res json :=
  match v with
  | JStr s => Ok (JStr (firstn n s))
  | JList l => Ok (JList (firstn n l))
  | JDict _ => Raise (u "unhashable type: 'slice'")
  | _ => Raise (u "'" ++ type_name v ++ u "' object is not subscriptable")
  end.

(** [v + w] for the operand types the script can meet on the left of a
    [str]: only [str + str] succeeds. *)
Definition py_add_str (v : json) (w : pystr) : res json :=
  match v with
  | JStr s => Ok (JStr (s ++ w))
  | JList _ =>
      Raise (u "can only concatenate list (not " ++ quoted (u "str")
             ++ u ") to list")
  | _ =>
      Raise (u "unsupported operand type(s) for +: '" ++ type_name v
             ++ u "' and 'str'")
  end.

(** [v.get(k, default)]: only a dict has the method. *)
Definition py_get (v : json) (k : pystr) (default : json) : res json :=
  match v with
  | JDict d =>
      Ok (match dict_get d k with Some x => x | None => default end)
  | _ => Raise (u "'" ++ type_name v ++ u "' object has no attribute 'get'")
  end.

(** [v[k]] with a [str] key [k]. *)
Definition py_getitem (v : json) (k : pystr) : res json :=
  match v with
  | JDict d =>
      match dict_get d k with
      | Some x => Ok x
      | None => Raise (u "'" ++ k ++ u "'")
      end
  | JStr _ => Raise (u "string indices must be integers, not 'str'")
  | JList _ => Raise (u "list indices must be integers or slices, not str")
  | _ => Raise (u "'" ++ type_name v ++ u "' object is not subscriptable")
  end.

End PyObj.
Export PyObj.

(* ------------------------------------------------------------------ *)
(** * A reference JSON decoder

    [json.loads] belongs to Python's library, not to the script.  The
    summarizer below takes the decoder as a parameter, and every general
    theorem holds for every decoder.  [json_loads] is an executable
    decoder for the closed examples; it follows the scanner of CPython
    3.12 ([Modules/_json.c], [json/decoder.py]), including the text of
    [JSONDecodeError] and the [ValueError] of an integer literal of more
    than 4300 digits.  The recursion limit of CPython has no counterpart
    here: [json_loads] gives [scan_once] more fuel than the document has
    characters, so nesting never exhausts it. *)

Module JsonDecoder.

Inductive scan (A : Type) : Type :=
| Scanned (v : A) (rest : pystr)
| Failed (msg : pystr) (at_ : pystr)    (* [at_]: the document from the error on *)
| Raised (e : exn).                     (* not a [JSONDecodeError] *)
Arguments Scanned {A} v rest.
Arguments Failed {A} msg at_.
Arguments Raised {A} e.

Definition ch (a : ascii) : N := N_of_ascii a.
Definition is_ch (c : N) (a : ascii) : bool := N.eqb c (ch a).
Definition BACKSLASH : N := 92.

Definition is_digit (c : N) : bool := ((48 <=? c) && (c <=? 57))%N.

(** [WHITESPACE = re.compile(r'[ \t\n\r]*')] *)
Definition is_ws (c : N) : bool :=
  ((c =? 32) || (c =? 9) || (c =? 10) || (c =? 13))%N.

Fixpoint skip_ws (s : pystr) : pystr :=
  match s with
  | c :: s' => if is_ws c then skip_ws s' else s
  | [] => []
  end.

Definition hex_digit (c : N) : option N :=
  (if (48 <=? c) && (c <=? 57) then Some (c - 48)
   else if (97 <=? c) && (c <=? 102) then Some (c - 87)
   else if (65 <=? c) && (c <=? 70) then Some (c - 55)
   else None)%N.

Definition hex4 (a b c d : N) : option N :=
  match hex_digit a, hex_digit b, hex_digit c, hex_digit d with
  | Some x, Some y, Some z, Some w => Some (((x * 16 + y) * 16 + z) * 16 + w)%N
  | _, _, _, _ => None
  end.

Definition is_high_surrogate (c : N) : bool := ((55296 <=? c) && (c <=? 56319))%N.
Definition is_low_surrogate (c : N) : bool := ((56320 <=? c) && (c <=? 57343))%N.
Definition join_surrogates (hi lo : N) : N :=
  (65536 + ((hi - 55296) * 1024 + (lo - 56320)))%N.

(** The one-character escapes after a backslash. *)
Definition escape (c : N) : option N :=
  if N.eqb c DQUOTE then Some DQUOTE
  else if is_ch c "\" then Some BACKSLASH
  else if is_ch c "/" then Some (ch "/")
  else if is_ch c "b" then Some 8%N
  else if is_ch c "f" then Some 12%N
  else if is_ch c "n" then Some 10%N
  else if is_ch c "r" then Some 13%N
  else if is_ch c "t" then Some 9%N
  else None.

Definition UNTERMINATED := u "Unterminated string starting at".
Definition INVALID_UXXXX := u "Invalid \uXXXX escape".

(** [scanstring_unicode], strict: [s] follows the opening quote, [begin] is
    the document from the opening quote on, [acc] the characters read so
    far, reversed.  A [\uXXXX] escape needs a character after its four
    digits ([end >= len] is an error), and a low surrogate is looked for
    only when a character follows the second escape ([end + 6 < len]). *)
Fixpoint scanstring (begin acc s : pystr) : scan pystr :=
  match s with
  | [] => Failed UNTERMINATED begin
  | c :: r =>
      if N.eqb c DQUOTE then Scanned (rev acc) r
      else if N.eqb c BACKSLASH then
        match r with
        | [] => Failed UNTERMINATED begin
        | e :: r1 =>
            if is_ch e "u" then
              match r1 with
              | a :: b :: c1 :: d :: ((_ :: _) as r2) =>
                  match hex4 a b c1 d with
                  | None => Failed INVALID_UXXXX r
                  | Some hi =>
                      match r2 with
                      | b2 :: u2 :: a' :: b' :: c' :: d' :: ((_ :: _) as r3) =>
                          if is_high_surrogate hi && N.eqb b2 BACKSLASH
                             && is_ch u2 "u"
                          then
                            match hex4 a' b' c' d' with
                            | None =>
                                Failed INVALID_UXXXX
                                  (u2 :: a' :: b' :: c' :: d' :: r3)
                            | Some lo =>
                                if is_low_surrogate lo
                                then scanstring begin
                                       (join_surrogates hi lo :: acc) r3
                                else scanstring begin (hi :: acc) r2
                            end
                          else scanstring begin (hi :: acc) r2
                      | _ => scanstring begin (hi :: acc) r2
                      end
                  end
              | _ => Failed INVALID_UXXXX r
              end
            else
              match escape e with
              | Some x => scanstring begin (x :: acc) r1
              | None => Failed (u "Invalid \escape") s
              end
        end
      else if (c <=? 31)%N then Failed (u "Invalid control character at") s
      else scanstring begin (c :: acc) r
  end.

(** Longest prefix of decimal digits, and what follows it. *)
Fixpoint span_digits (s : pystr) : pystr * pystr :=
  match s with
  | c :: s' =>
      if is_digit c
      then let (ds, r) := span_digits s' in (c :: ds, r)
      else ([], s)
  | [] => ([], [])
  end.

Definition Z_of_digits (ds : pystr) : Z :=
  fold_left (fun acc c => (acc * 10 + Z.of_N (c - 48))%Z) ds 0%Z.

(** The binary64 nearest to [(-1)^neg * m * 10^e] (ties to even), as
    [float] of a decimal literal gives it. *)
Definition float_of_decimal (neg : bool) (m e : Z) : spec_float :=
  if (m =? 0)%Z then S754_zero neg
  else if (0 <=? e)%Z then
    match (m * 10 ^ e)%Z with
    | Zpos p => binary_round 53 1024 neg p 0
    | _ => S754_nan
    end
  else
    let '(q, e', l) := SFdiv_core_binary 53 1024 m 0 (10 ^ (- e)) 0 in
    binary_round_aux 53 1024 neg q e' l.

Definition EXPECTING_VALUE := u "Expecting value".
Definition MAX_STR_DIGITS : nat := 4300.

(** [int(ds)] of a literal of more digits than [sys.get_int_max_str_digits()]. *)
Definition int_limit_error (digits : nat) : exn :=
  u "Exceeds the limit (4300 digits) for integer string conversion: value has "
    ++ str_of_nat digits
    ++ u " digits; use sys.set_int_max_str_digits() to increase the limit".

(** [_match_number_unicode]: "Expecting value" when no number starts at
    [s]. *)
Definition match_number (s : pystr) : scan json :=
  let (neg, s1) :=
    match s with
    | c :: r => if is_ch c "-" then (true, r) else (false, s)
    | [] => (false, s)
    end in
  let int_part : option (pystr * pystr) :=
    match s1 with
    | c :: r =>
        if is_ch c "0" then Some ([c], r)
        else if is_digit c then Some (span_digits s1)
        else None
    | [] => None
    end in
  match int_part with
  | None => Failed EXPECTING_VALUE s
  | Some (ids, s2) =>
      let (fds, s3) :=
        match s2 with
        | p :: d :: _ =>
            if is_ch p "." && is_digit d then span_digits (tl s2) else ([], s2)
        | _ => ([], s2)
        end in
      let '(has_exp, ex, s4) :=
        match s3 with
        | e :: r =>
            if is_ch e "e" || is_ch e "E" then
              let (eneg, r1) :=
                match r with
                | sg :: r' =>
                    if is_ch sg "-" then (true, r')
                    else if is_ch sg "+" then (false, r') else (false, r)
                | [] => (false, r)
                end in
              let (eds, r2) := span_digits r1 in
              match eds with
              | [] => (false, 0%Z, s3)
              | _ => (true, if eneg then (- Z_of_digits eds)%Z
                            else Z_of_digits eds, r2)
              end
            else (false, 0%Z, s3)
        | [] => (false, 0%Z, s3)
        end in
      match fds, has_exp with
      | [], false =>
          if MAX_STR_DIGITS <? length ids
          then Raised (int_limit_error (length ids))
          else Scanned
                 (JInt (if neg then - Z_of_digits ids else Z_of_digits ids)%Z)
                 s4
      | _, _ =>
          Scanned (JFloat (float_of_decimal neg (Z_of_digits (ids ++ fds))
                             (ex - Z.of_nat (length fds))%Z)) s4
      end
  end.

Definition EXPECTING_COMMA := u "Expecting ',' delimiter".
Definition EXPECTING_NAME :=
  u "Expecting property name enclosed in double quotes".

Section Containers.
(** [scan]: [scan_once] on the values one level down. *)
Variable scan_value : pystr -> scan json.

(** The loop of [_parse_array_unicode]; [s] is at the start of a value and
    [n] bounds the number of elements still to come. *)
Fixpoint array_loop (n : nat) (acc : list json) (s : pystr) : scan json :=
  match scan_value s with
  | Failed msg a => Failed msg a
  | Raised e => Raised e
  | Scanned v r =>
      let r := skip_ws r in
      match r, n with
      | c :: r', S n' =>
          if is_ch c "]" then Scanned (JList (rev (v :: acc))) r'
          else if is_ch c "," then array_loop n' (v :: acc) (skip_ws r')
          else Failed EXPECTING_COMMA r
      | _, _ => Failed EXPECTING_COMMA r
      end
  end.

Definition parse_array (s : pystr) : scan json :=
  let s := skip_ws s in
  match s with
  | c :: r =>
      if is_ch c "]" then Scanned (JList []) r
      else array_loop (length s) [] s
  | [] => array_loop 0 [] s
  end.

(** The loop of [_parse_object_unicode]; [s] is where a key must start. *)
Fixpoint object_loop (n : nat) (acc : pydict json) (s : pystr) : scan json :=
  match s with
  | q :: r0 =>
      if N.eqb q DQUOTE then
        match scanstring s [] r0 with
        | Failed msg a => Failed msg a
        | Raised e => Raised e
        | Scanned key r =>
            let r := skip_ws r in
            match r with
            | c :: r1 =>
                if is_ch c ":" then
                  match scan_value (skip_ws r1) with
                  | Failed msg a => Failed msg a
                  | Raised e => Raised e
                  | Scanned v r2 =>
                      let acc := dict_set acc key v in
                      let r2 := skip_ws r2 in
                      match r2, n with
                      | c2 :: r3, S n' =>
                          if is_ch c2 "}" then Scanned (JDict acc) r3
                          else if is_ch c2 ","
                          then object_loop n' acc (skip_ws r3)
                          else Failed EXPECTING_COMMA r2
                      | _, _ => Failed EXPECTING_COMMA r2
                      end
                  end
                else Failed (u "Expecting ':' delimiter") r
            | [] => Failed (u "Expecting ':' delimiter") r
            end
        end
      else Failed EXPECTING_NAME s
  | [] => Failed EXPECTING_NAME s
  end.

Definition parse_object (s : pystr) : scan json :=
  let s := skip_ws s in
  match s with
  | c :: r =>
      if is_ch c "}" then Scanned (JDict []) r
      else object_loop (length s) [] s
  | [] => object_loop 0 [] s
  end.

End Containers.

(** [scan_once_unicode]; [fuel] bounds the nesting depth. *)
Fixpoint scan_once (fuel : nat) (s : pystr) : scan json :=
  match fuel with
  | O => Failed (u "maximum recursion depth exceeded") s
  | S fuel' =>
      match s with
      | [] => Failed EXPECTING_VALUE s
      | c :: r =>
          if N.eqb c DQUOTE then
            match scanstring s [] r with
            | Scanned x r' => Scanned (JStr x) r'
            | Failed msg a => Failed msg a
            | Raised e => Raised e
            end
          else if is_ch c "{" then parse_object (scan_once fuel') r
          else if is_ch c "[" then parse_array (scan_once fuel') r
          else if startswith s (u "null") then Scanned JNull (skipn 4 s)
          else if startswith s (u "true") then Scanned (JBool true) (skipn 4 s)
          else if startswith s (u "false") then
            Scanned (JBool false) (skipn 5 s)
          else if startswith s (u "NaN") then
            Scanned (JFloat S754_nan) (skipn 3 s)
          else if startswith s (u "Infinity") then
            Scanned (JFloat (S754_infinity false)) (skipn 8 s)
          else if startswith s (u "-Infinity") then
            Scanned (JFloat (S754_infinity true)) (skipn 9 s)
          else match_number s
      end
  end.

(** [str(JSONDecodeError(msg, doc, pos))] *)
Definition errmsg (msg doc : pystr) (pos : nat) : exn :=
  let before := firstn pos doc in
  let lineno := S (count_occ N.eq_dec before NEWLINE) in
  let last_line := nth 0 (rev (split before [NEWLINE])) [] in
  let colno := S (length last_line) in
  msg ++ u ": line " ++ str_of_nat lineno ++ u " column " ++ str_of_nat colno
      ++ u " (char " ++ str_of_nat pos ++ u ")".

(** [json.loads(s)] for a [str] argument. *)
Definition json_loads (s : pystr) : res json :=
  if startswith s [65279%N]
  then Raise (errmsg (u "Unexpected UTF-8 BOM (decode using utf-8-sig)") s 0)
  else
    match scan_once (S (length s)) (skip_ws s) with
    | Failed msg a => Raise (errmsg msg s (length s - length a))
    | Raised e => Raise e
    | Scanned v r =>
        match skip_ws r with
        | [] => Ok v
        | r' => Raise (errmsg (u "Extra data") s (length s - length r'))
        end
    end.

End JsonDecoder.

(* ------------------------------------------------------------------ *)
(** * The script: configuration and data *)

Definition MAX_SUMMARY_LENGTH : nat := 40.
Definition BATCH_SIZE : nat := 50.   (* Save checkpoint every N summaries *)
Definition MODEL : pystr := u "claude-sonnet-4-20250514".

(** The raw dump: badges, their versions, their requirements.  A field read
    with [.get(key, default)] is optional; names and numbers are strings. *)
Record requirement := mkRequirement {
  req_text : option pystr;
  req_number : option pystr }.

Record version := mkVersion {
  ver_requirements : option (list requirement) }.

Record badge := mkBadge {
  badge_name : pystr;
  badge_versions : option (list version) }.

(** The provenance kept with a unique text. *)
Record info := mkInfo {
  info_badge : pystr;
  info_number : pystr }.

Definition get_or {A} (o : option A) (default : A) : A :=
  match o with Some a => a | None => default end.

(** ** load_requirements *)

Definition add_requirement (name : pystr) (unique_texts : pydict info)
           (req : requirement) : pydict info :=
  let text := strip (get_or (req_text req) []) in
  if negb (Nat.eqb (length text) 0) && negb (dict_mem unique_texts text) then
    (* Skip HTML notes *)
    if startswith text (u "<b>NOTE:</b>") || startswith text (u "NOTE:")
    then unique_texts
    else dict_set unique_texts text
           {| info_badge := name; info_number := get_or (req_number req) [] |}
  else unique_texts.

Definition load_requirements (data : list badge) : pydict info :=
  fold_left
    (fun unique_texts b =>
       fold_left
         (fun unique_texts v =>
            fold_left (add_requirement (badge_name b))
                      (get_or (ver_requirements v) []) unique_texts)
         (get_or (badge_versions b) []) unique_texts)
    data [].

(** ** The external service

    [cl n rq] is what [client.messages.create(...)] followed by
    [response.content[0].text] gives for the request [rq] when [n] requests
    were made before it in this run: the reply text, or the exception
    raised (network, timeout, quota, empty content, ...). *)
Record request := mkRequest {
  rq_model : pystr;
  rq_max_tokens : nat;
  rq_prompt : pystr }.

Definition client := nat -> request -> res pystr.

(* ------------------------------------------------------------------ *)
(** * generate_summary *)

Definition nl : pystr := [NEWLINE].

(** The f-string of lines 76-91. *)
Definition build_prompt (text badge_name req_number : pystr) : pystr :=
  u "Summarize this Boy Scout merit badge requirement in EXACTLY 40 characters or less." ++ nl ++
  u "The summary should capture the core action/knowledge required." ++ nl ++
  u "Use abbreviations if needed (e.g., " ++ quoted (u "Demo") ++ u " for "
    ++ quoted (u "Demonstrate") ++ u ", " ++ quoted (u "Explain") ++ u " for "
    ++ quoted (u "Explain to your counselor") ++ u ")." ++ nl ++
  u "Do NOT include the requirement number." ++ nl ++
  u "Do NOT use quotes around the summary." ++ nl ++
  nl ++
  u "Badge: " ++ badge_name ++ nl ++
  u "Requirement " ++ req_number ++ u ": " ++ text ++ nl ++
  nl ++
  u "If critical information MUST be lost to fit 40 chars, add a note." ++ nl ++
  nl ++
  u "Respond in this exact JSON format:" ++ nl ++
  u "{" ++ quoted (u "summary") ++ u ": " ++ quoted (u "your 40 char max summary")
    ++ u ", " ++ quoted (u "flag") ++ u ": null}" ++ nl ++
  nl ++
  u "Or if critical info is lost:" ++ nl ++
  u "{" ++ quoted (u "summary") ++ u ": " ++ quoted (u "your 40 char max summary")
    ++ u ", " ++ quoted (u "flag") ++ u ": "
    ++ quoted (u "brief note about what's lost") ++ u "}".

Definition FENCE : pystr := [BACKTICK; BACKTICK; BACKTICK].

(** Lines 100-107: strip the reply and take it out of a markdown code
    block.  [split] on a text that starts with the fence has at least two
    pieces, so [[1]] never fails. *)
Definition unwrap_reply (raw : pystr) : pystr :=
  let result_text := strip raw in
  if startswith result_text FENCE then
    let result_text := nth 1 (split result_text FENCE) [] in
    if startswith result_text (u "json") then skipn 4 result_text
    else result_text
  else result_text.

(** [result[k] = x] *)
Definition py_setitem (v : json) (k : pystr) (x : json) : res json :=
  match v with
  | JDict d => Ok (JDict (dict_set d k x))
  | JList _ => Raise (u "list indices must be integers or slices, not str")
  | _ =>
      Raise (u "'" ++ type_name v
             ++ u "' object does not support item assignment")
  end.

(** Lines 111-120: validate the length of the decoded reply. *)
Definition validate (result : json) : res json :=
  summary <- py_get result (u "summary") (JStr []) ;;
  n <- py_len summary ;;
  if MAX_SUMMARY_LENGTH <? n then
    (* Truncate with ellipsis if API returned too long *)
    head <- py_slice_to (MAX_SUMMARY_LENGTH - 1) summary ;;
    summary <- py_add_str head [ELLIPSIS] ;;
    result <- py_setitem result (u "summary") summary ;;
    flag <- py_get result (u "flag") JNull ;;
    if negb (truthy flag)
    then py_setitem result (u "flag") (JStr (u "auto-truncated"))
    else Ok result
  else Ok result.

(** The record of a text that is already short enough. *)
Definition short_record (text : pystr) : json :=
  JDict [(u "summary", JStr text); (u "flag", JNull)].

(** The record of the [except] branch: truncate the original. *)
Definition fallback_record (text : pystr) (e : exn) : json :=
  JDict [(u "summary", JStr (firstn (MAX_SUMMARY_LENGTH - 1) text ++ [ELLIPSIS]));
         (u "flag", JStr (u "API error: " ++ firstn 50 e))].

Section Summarizer.

(** [json.loads] *)
Variable json_loads : pystr -> res json.

(** The body of the [try] (lines 94-120). *)
Definition attempt (cl : client) (n : nat) (prompt : pystr) : res json :=
  raw <- cl n {| rq_model := MODEL; rq_max_tokens := 150;
                 rq_prompt := prompt |} ;;
  result <- json_loads (unwrap_reply raw) ;;
  validate result.

(** [generate_summary(client, text, badge_name, req_number)], with the
    number [n] of requests made so far; returns the record and the
    number of requests made after the call. *)
Definition generate_summary (cl : client) (n : nat)
           (text badge_name req_number : pystr) : json * nat :=
  (* If already short enough, return as-is *)
  if length text <=? MAX_SUMMARY_LENGTH then (short_record text, n)
  else
    match attempt cl n (build_prompt text badge_name req_number) with
    | Ok result => (result, S n)
    | Raise e => (fallback_record text e, S n)
    end.

End Summarizer.

(* ------------------------------------------------------------------ *)
(** * main: the batch driver, the checkpoint store, the output writer *)

Record flagged_item := mkFlagged {
  fl_badge : pystr;
  fl_number : pystr;
  fl_original : pystr;
  fl_summary : json;
  fl_flag : json }.

(** What the driver mutates: its local variables [summaries], [flagged],
    [processed], the content of the checkpoint file ([None]: no file),
    and the number of requests sent to the service. *)
Record state := mkState {
  summaries : pydict json;
  flagged : list flagged_item;
  processed : nat;
  CHECKPOINT_FILE : option (pydict json);
  requests : nat }.

(** The current state and every state the run went through before it,
    most recent first. *)
Record history := mkHistory {
  now : state;
  earlier : list state }.

Definition states (h : history) : list state := now h :: earlier h.

(** Computations that read and write the state and may raise; a raised
    exception leaves the state as it was when raised. *)
Definition prog (A : Type) : Type := history -> res A * history.

Definition ret {A} (a : A) : prog A := fun h => (Ok a, h).

Definition bind_prog {A B} (m : prog A) (f : A -> prog B) : prog B :=
  fun h =>
    match m h with
    | (Ok a, h') => f a h'
    | (Raise e, h') => (Raise e, h')
    end.

Definition gets {A} (f : state -> A) : prog A := fun h => (Ok (f (now h)), h).

Definition modify (f : state -> state) : prog unit :=
  fun h => (Ok tt, {| now := f (now h); earlier := now h :: earlier h |}).

(** A pure computation that may raise. *)
Definition lift {A} (r : res A) : prog A := fun h => (r, h).

Notation "x <~ c ;; k" := (bind_prog c (fun x => k))
  (at level 61, c at next level, right associativity) : py_scope.
Notation "c ;;; k" := (bind_prog c (fun _ => k))
  (at level 61, right associativity) : py_scope.

Fixpoint for_each {A} (items : list A) (body : A -> prog unit) : prog unit :=
  match items with
  | [] => ret tt
  | x :: rest => body x ;;; for_each rest body
  end.

(** ** The checkpoint store *)

Definition load_checkpoint (file : option (pydict json)) : pydict json :=
  get_or file [].

(** [save_checkpoint(summaries)], as one step. *)
Definition save_checkpoint : prog unit :=
  modify (fun st => {| summaries := summaries st; flagged := flagged st;
                       processed := processed st;
                       CHECKPOINT_FILE := Some (summaries st);
                       requests := requests st |}).

(** ** Dict comprehensions

    [{k: e for k, v in d.items() if c}]: [f k v] is [Ok (Some e)] when the
    condition holds, [Ok None] when it does not, and [Raise] when
    evaluating the condition or the value raises. *)
Definition comp_step {B} (acc : pydict B) (k : pystr) (o : option B) : pydict B :=
  match o with Some b => dict_set acc k b | None => acc end.

Fixpoint dict_comp_from {A B} (acc : pydict B) (f : pystr -> A -> res (option B))
         (d : pydict A) : res (pydict B) :=
  match d with
  | [] => Ok acc
  | (k, v) :: d' =>
      o <- f k v ;;
      dict_comp_from (comp_step acc k o) f d'
  end.

Definition dict_comp {A B} (f : pystr -> A -> res (option B)) (d : pydict A)
  : res (pydict B) := dict_comp_from [] f d.

(** ** The output artifact *)

Record output := mkOutput {
  out_version : pystr;
  out_generated : pystr;
  out_summaries : pydict json;
  out_flags : pydict json }.

(** [k: v["summary"]] of line 208. *)
Definition summary_of (_ : pystr) (v : json) : res (option json) :=
  x <- py_getitem v (u "summary") ;; Ok (Some x).

(** [k: v["flag"] ... if v.get("flag")] of line 209. *)
Definition flag_of (_ : pystr) (v : json) : res (option json) :=
  flag <- py_get v (u "flag") JNull ;;
  if truthy flag then x <- py_getitem v (u "flag") ;; Ok (Some x)
  else Ok None.

(** Lines 205-210; [today] is [time.strftime("%Y-%m-%d")]. *)
Definition build_output (today : pystr) (summaries : pydict json) : res output :=
  ss <- dict_comp summary_of summaries ;;
  fs <- dict_comp flag_of summaries ;;
  Ok {| out_version := u "1.0"; out_generated := today;
        out_summaries := ss; out_flags := fs |}.

(** ** The batch loop *)

(** Line 147: [{k: v for k, v in unique_texts.items() if k not in summaries}] *)
Definition filter_unprocessed (summaries0 : pydict json)
           (unique_texts : pydict info) : res (pydict info) :=
  dict_comp (fun k v => Ok (if dict_mem summaries0 k then None else Some v))
            unique_texts.

Section Driver.

Variable json_loads : pystr -> res json.
Variable cl : client.

(** [result = generate_summary(client, text, badge, number)] *)
Definition call_generate_summary (text badge number : pystr) : prog json :=
  n <~ gets requests ;;
  let (result, n') := generate_summary json_loads cl n text badge number in
  modify (fun st => {| summaries := summaries st; flagged := flagged st;
                       processed := processed st;
                       CHECKPOINT_FILE := CHECKPOINT_FILE st;
                       requests := n' |}) ;;;
  ret result.

(** The body of the [for] loop (lines 158-184) for one item of
    [to_process]. *)
Definition loop_body (item : pystr * info) : prog unit :=
  let (text, inf) := item in
  modify (fun st => {| summaries := summaries st; flagged := flagged st;
                       processed := processed st + 1;
                       CHECKPOINT_FILE := CHECKPOINT_FILE st;
                       requests := requests st |}) ;;;
  let badge := info_badge inf in
  let number := info_number inf in
  result <~ call_generate_summary text badge number ;;
  (* summaries[text] = result *)
  modify (fun st => {| summaries := dict_set (summaries st) text result;
                       flagged := flagged st; processed := processed st;
                       CHECKPOINT_FILE := CHECKPOINT_FILE st;
                       requests := requests st |}) ;;;
  (* print(f"{result['summary'][:50]}...") *)
  lift (summary <- py_getitem result (u "summary") ;;
        py_slice_to 50 summary) ;;;
  flag <~ lift (py_get result (u "flag") JNull) ;;
  (if truthy flag then
     summary <~ lift (py_getitem result (u "summary")) ;;
     flag <~ lift (py_getitem result (u "flag")) ;;
     modify (fun st =>
       {| summaries := summaries st;
          flagged := flagged st ++
            [{| fl_badge := badge; fl_number := number;
                fl_original := if 100 <? length text
                               then firstn 100 text ++ u "..." else text;
                fl_summary := summary; fl_flag := flag |}];
          processed := processed st;
          CHECKPOINT_FILE := CHECKPOINT_FILE st;
          requests := requests st |})
   else ret tt) ;;;
  (* Save checkpoint periodically *)
  p <~ gets processed ;;
  (if p mod BATCH_SIZE =? 0 then save_checkpoint else ret tt).

(** Lines 147-187: filter the texts that need processing, process them,
    save. *)
Definition process (unique_texts : pydict info) : prog unit :=
  summaries0 <~ gets summaries ;;
  to_process <~ lift (filter_unprocessed summaries0 unique_texts) ;;
  match to_process with
  | [] => ret tt                      (* All summaries already generated! *)
  | _ => for_each to_process loop_body ;;; save_checkpoint   (* Final save *)
  end.

End Driver.

(** What a run leaves behind. *)
Inductive outcome : Type :=
| SysExit (code : nat)                   (* before anything was loaded *)
| Crashed (e : exn) (h : history)        (* uncaught exception *)
| Done (out : output) (h : history).     (* OUTPUT_FILE written with [out] *)

(** The environment of a run. *)
Record environment := mkEnv {
  ANTHROPIC_API_KEY : option pystr;      (* os.environ.get(...) *)
  today : pystr;                         (* time.strftime("%Y-%m-%d") *)
  INPUT_FILE : list badge;               (* raw_requirements.json *)
  checkpoint : option (pydict json);     (* summaries_checkpoint.json *)
  service : client }.

Definition initial_state (env : environment) : state :=
  {| summaries := load_checkpoint (checkpoint env); flagged := [];
     processed := 0; CHECKPOINT_FILE := checkpoint env; requests := 0 |}.

(** [os.environ.get("ANTHROPIC_API_KEY")] is truthy. *)
Definition api_key_set (env : environment) : bool :=
  truthy (match ANTHROPIC_API_KEY env with
          | Some k => JStr k
          | None => JNull
          end).

Definition main (json_loads : pystr -> res json) (env : environment) : outcome :=
  if negb (api_key_set env)
  then SysExit 1
  else
    let unique_texts := load_requirements (INPUT_FILE env) in
    let h0 := {| now := initial_state env; earlier := [] |} in
    match process json_loads (service env) unique_texts h0 with
    | (Raise e, h) => Crashed e h
    | (Ok _, h) =>
        (* Build final output file *)
        match build_output (today env) (summaries (now h)) with
        | Raise e => Crashed e h
        | Ok out => Done out h
        end
    end.

(** Every state a run went through, most recent first. *)
Definition run_states (o : outcome) : list state :=
  match o with
  | SysExit _ => []
  | Crashed _ h | Done _ h => states h
  end.

(** ** Predicates of the statements *)



(** The expression printed on line 167 evaluates. *)
Definition printable (v : json) : bool :=
  match (summary <- py_getitem v (u "summary") ;; py_slice_to 50 summary) with
  | Ok _ => true
  | Raise _ => false
  end.


(** [d] has every record of [c], unchanged. *)
Definition dict_incl (c d : pydict json) : Prop :=
  forall k v, dict_get c k = Some v -> dict_get d k = Some v.

(** The record [validate] leaves for a reply whose summary is a string of
    more than 40 characters. *)
Definition truncated_reply (d : pydict json) (s : pystr) : pydict json :=
  let d1 := dict_set d (u "summary")
              (JStr (firstn (MAX_SUMMARY_LENGTH - 1) s ++ [ELLIPSIS])) in
  if truthy (get_or (dict_get d (u "flag")) JNull) then d1
  else dict_set d1 (u "flag") (JStr (u "auto-truncated")).

(** The request line 94 sends for a text. *)
Definition the_request (text badge_name req_number : pystr) : request :=
  {| rq_model := MODEL; rq_max_tokens := 150;
     rq_prompt := build_prompt text badge_name req_number |}.

Section Calls.

Variable json_loads : pystr -> res json.
Variable cl : client.

(** Any failure inside the [try]: the request raises, the decoder raises
    on the reply, or the length validation raises on the decoded value
    (it is not an object, or its summary has no length). *)
Definition call_fails (n : nat) (text b num : pystr) (e : exn) : Prop :=
  cl n (the_request text b num) = Raise e \/
  (exists raw, cl n (the_request text b num) = Ok raw
               /\ json_loads (unwrap_reply raw) = Raise e) \/
  (exists raw v, cl n (the_request text b num) = Ok raw
                 /\ json_loads (unwrap_reply raw) = Ok v
                 /\ validate v = Raise e).

(** The service answers with a text that decodes to the object [d]. *)
Definition call_decodes (n : nat) (text b num : pystr) (d : pydict json) : Prop :=
  exists raw, cl n (the_request text b num) = Ok raw
              /\ json_loads (unwrap_reply raw) = Ok (JDict d).

(** The record [generate_summary] returns for an item when [n] requests
    were made before. *)
Definition result_of (n : nat) (item : pystr * info) : json :=
  fst (generate_summary json_loads cl n (fst item)
         (info_badge (snd item)) (info_number (snd item))).

End Calls.


(** The states one iteration on [text] can go through, seen from the
    mapping [s] and the file [f] it started with, [s'] being the mapping
    after [summaries[text] = result]. *)
Definition step_state (s s' : pydict json) (f : option (pydict json))
           (x : state) : Prop :=
  (summaries x = s /\ CHECKPOINT_FILE x = f) \/
  (summaries x = s' /\ CHECKPOINT_FILE x = f) \/
  (summaries x = s' /\ CHECKPOINT_FILE x = Some s').

(** A property [Q] of the mapping and the file, at a state. *)
Definition state_inv (Q : pydict json -> option (pydict json) -> Prop)
           (x : state) : Prop :=
  Q (summaries x) (CHECKPOINT_FILE x).

(** ** Vocabulary for the loader and the driver *)

(** Every requirement of the dump with the name of its badge, in the order
    the three nested loops of [load_requirements] visit them. *)
Definition all_requirements (data : list badge) : list (pystr * requirement) :=
  flat_map
    (fun b =>
       flat_map (fun v => map (pair (badge_name b))
                              (get_or (ver_requirements v) []))
                (get_or (badge_versions b) []))
    data.

(** [req.get("text", "").strip()] *)
Definition stripped_text (req : requirement) : pystr :=
  strip (get_or (req_text req) []).

(** A text the loader keeps: not empty, and not a note. *)
Definition accepted (text : pystr) : bool :=
  negb (Nat.eqb (length text) 0)
  && negb (startswith text (u "<b>NOTE:</b>") || startswith text (u "NOTE:")).

(** The texts of [l] that are not in [seen], each at its first occurrence
    only, in the order of [l]. *)
Fixpoint first_occurrences (seen l : list pystr) : list pystr :=
  match l with
  | [] => []
  | x :: l' =>
      if existsb (str_eqb x) seen then first_occurrences seen l'
      else x :: first_occurrences (x :: seen) l'
  end.

(** The texts the loader keeps, in the order of the dump: the stripped
    text of every requirement, the empty ones and the notes left out, each
    text at its first occurrence only. *)
Definition kept_texts (data : list badge) : list pystr :=
  first_occurrences []
    (filter accepted
            (map (fun nr => stripped_text (snd nr)) (all_requirements data))).

(** The provenance of the first requirement of the dump whose stripped
    text is [k], when [k] is a text the loader keeps. *)
Definition provenance (data : list badge) (k : pystr) : option info :=
  if accepted k then
    match find (fun nr => str_eqb (stripped_text (snd nr)) k)
               (all_requirements data) with
    | Some (name, req) =>
        Some {| info_badge := name; info_number := get_or (req_number req) [] |}
    | None => None
    end
  else None.

(** The items of [unique_texts] that have no record in [summaries0], in
    the order of [unique_texts]. *)
Definition unprocessed (summaries0 : pydict json) (unique_texts : pydict info)
  : pydict info :=
  filter (fun kv => negb (dict_mem summaries0 (fst kv))) unique_texts.

(** The items whose text is too long to be its own summary. *)
Definition long_items (items : pydict info) : pydict info :=
  filter (fun kv => negb (length (fst kv) <=? MAX_SUMMARY_LENGTH)) items.

(** The mapping is what the checkpoint file holds followed by at most
    [BATCH_SIZE] records. *)
Definition at_most_a_batch_unsaved (st : state) : Prop :=
  exists extra,
    summaries st = load_checkpoint (CHECKPOINT_FILE st) ++ extra
    /\ length extra <= BATCH_SIZE.

(** Between two iterations: what is not in the file yet is what was
    processed since the last multiple of [BATCH_SIZE]. *)
Definition batch_inv (h : history) : Prop :=
  exists extra,
    summaries (now h) = load_checkpoint (CHECKPOINT_FILE (now h)) ++ extra
    /\ length extra = processed (now h) mod BATCH_SIZE.

Section Generated.

Variable json_loads : pystr -> res json.
Variable cl : client.

(** The items with the record [generate_summary] returns for each, the
    requests being numbered from [n] on, in the order of the items. *)
Fixpoint generated (n : nat) (items : pydict info)
  : list (pystr * info * json) :=
  match items with
  | [] => []
  | (text, inf) :: rest =>
      let (result, n') :=
        generate_summary json_loads cl n text (info_badge inf) (info_number inf) in
      (text, inf, result) :: generated n' rest
  end.

End Generated.

(** The entry of the mapping for a generated item. *)
Definition record_of (x : pystr * info * json) : pystr * json :=
  (fst (fst x), snd x).

(** The entry of the report for a generated item: one when the record has
    a summary and a flag that is true, none otherwise. *)
Definition flagged_entry (x : pystr * info * json) : list flagged_item :=
  let '(text, inf, result) := x in
  match result with
  | JDict d =>
      match dict_get d (u "summary"), dict_get d (u "flag") with
      | Some summary, Some flag =>
          if truthy flag then
            [{| fl_badge := info_badge inf; fl_number := info_number inf;
                fl_original := if 100 <? length text
                               then firstn 100 text ++ u "..." else text;
                fl_summary := summary; fl_flag := flag |}]
          else []
      | _, _ => []
      end
  | _ => []
  end.

(** No backtick in the text. *)
Definition no_backtick (s : pystr) : Prop := Forall (fun c => c <> BACKTICK) s.

(** What is left of the inside of a code block once a leading "json" is
    taken off. *)
Definition untagged (inside : pystr) : pystr :=
  if startswith inside (u "json") then skipn 4 inside else inside.

(* ------------------------------------------------------------------ *)
(** * Example data *)

Module Examples.

Definition bowline : pystr :=
  u "Demonstrate tying the bowline knot in under 15 seconds while blindfolded".

Definition hike : pystr :=
  u "Take a five-mile hike with your patrol and explain how you planned the route".

Definition square_knot : pystr := u "Tie a square knot".

Definition dump : list badge :=
  [ {| badge_name := u "Pioneering";
       badge_versions := Some
         [ {| ver_requirements := Some
                [ {| req_text := Some bowline; req_number := Some (u "1a") |};
                  {| req_text := Some (u "  Tie a square knot ");
                     req_number := Some (u "2") |} ] |} ] |};
    {| badge_name := u "Hiking";
       badge_versions := Some
         [ {| ver_requirements := Some
                [ {| req_text := Some hike; req_number := Some (u "3") |};
                  {| req_text := Some bowline; req_number := Some (u "7") |};
                  {| req_text := Some (u "NOTE: see the pamphlet");
                     req_number := None |} ] |} ] |} ].

Definition pioneering_1a : info :=
  {| info_badge := u "Pioneering"; info_number := u "1a" |}.

(** The service cannot be reached. *)
Definition unreachable : client := fun _ _ => Raise (u "Connection error.").

(** The reply is the empty object, [{}]. *)
Definition bare_object : client := fun _ _ => Ok (u "{}").


(** A reply in a fenced code block, whose summary has 50 characters and
    whose flag is null. *)
Definition long_summary : pystr :=
  u "Demonstrate tying a bowline in under 15s blindfold".
Definition long_reply : pystr :=
  FENCE ++ u "json" ++ nl ++ u "{" ++ quoted (u "summary") ++ u ": "
    ++ quoted long_summary ++ u ", " ++ quoted (u "flag") ++ u ": null}"
    ++ nl ++ FENCE.
Definition verbose : client := fun _ _ => Ok long_reply.

(** A reply with a summary of 29 characters and the empty string as
    flag. *)
Definition empty_flag_reply : pystr :=
  u "{" ++ quoted (u "summary") ++ u ": "
    ++ quoted (u "Demo bowline <15s blindfolded") ++ u ", "
    ++ quoted (u "flag") ++ u ": " ++ quoted [] ++ u "}".
Definition laconic : client := fun _ _ => Ok empty_flag_reply.

Definition env_with (cp : option (pydict json)) (day : pystr) (cl : client)
  : environment :=
  {| ANTHROPIC_API_KEY := Some (u "sk-example"); today := day;
     INPUT_FILE := dump; checkpoint := cp; service := cl |}.

Definition fresh : history :=
  {| now := {| summaries := []; flagged := []; processed := 0;
               CHECKPOINT_FILE := None; requests := 0 |};
     earlier := [] |}.

(** A checkpoint with every text of [dump]; the second record has a
    summary of 42 characters, the third an empty flag. *)
Definition complete_checkpoint : pydict json :=
  [ (bowline, JDict [(u "summary", JStr (u "Demo bowline <15s blindfolded"));
                     (u "flag", JStr (u "time limit abbreviated"))]);
    (square_knot, JDict [(u "summary",
                          JStr (u "Tie a square knot, also called a reef knot"));
                         (u "flag", JNull)]);
    (hike, JDict [(u "summary", JStr (u "Plan and take 5-mile patrol hike"));
                  (u "flag", JStr [])]) ].

Definition bowline_record : json :=
  JDict [(u "summary", JStr (u "Demo bowline <15s blindfolded"));
         (u "flag", JStr (u "time limit abbreviated"))].

(** A checkpoint that has the bowline text only. *)
Definition partial_checkpoint : pydict json := [(bowline, bowline_record)].

Definition hiking_3 : info :=
  {| info_badge := u "Hiking"; info_number := u "3" |}.

(** The history of a run that has just loaded [partial_checkpoint]. *)
Definition resumed : history :=
  {| now := {| summaries := partial_checkpoint; flagged := []; processed := 0;
               CHECKPOINT_FILE := Some partial_checkpoint; requests := 0 |};
     earlier := [] |}.

End Examples.

(* ------------------------------------------------------------------ *)
(** * Strings and dicts: basic facts *)

Lemma str_eqb_eq (a b : pystr) : str_eqb a b = true <-> a = b.
Proof.
  revert b; induction a as [|x a IH]; intros [|y b]; simpl;
    try (split; [discriminate | congruence]); try tauto.
  rewrite andb_true_iff, N.eqb_eq, IH. split.
  - intros [-> ->]; reflexivity.
  - intros E; injection E; auto.
Qed.

Lemma str_eqb_refl (a : pystr) : str_eqb a a = true.
Proof. apply str_eqb_eq; reflexivity. Qed.

Lemma str_eqb_neq (a b : pystr) : a <> b -> str_eqb a b = false.
Proof.
  intros H; destruct (str_eqb a b) eqn:E; [|reflexivity].
  apply str_eqb_eq in E; contradiction.
Qed.

Section DictFacts.
Context {V : Type}.
Implicit Types (d : pydict V) (k : pystr) (v : V).

Lemma dict_get_set_same d k v : dict_get (dict_set d k v) k = Some v.
Proof.
  induction d as [|[k' v'] d IH]; simpl.
  - rewrite str_eqb_refl; reflexivity.
  - destruct (str_eqb k' k) eqn:E; simpl; rewrite E; auto.
Qed.

Lemma dict_get_set_other d k k' v :
  k <> k' -> dict_get (dict_set d k v) k' = dict_get d k'.
Proof.
  intros N; induction d as [|[k0 v0] d IH]; simpl.
  - rewrite (str_eqb_neq k k' N); reflexivity.
  - destruct (str_eqb k0 k) eqn:E; simpl.
    + apply str_eqb_eq in E; subst k0.
      rewrite (str_eqb_neq k k' N); reflexivity.
    + rewrite IH; reflexivity.
Qed.

Lemma dict_mem_keys d k : dict_mem d k = true <-> In k (dict_keys d).
Proof.
  unfold dict_mem; induction d as [|[k0 v0] d IH]; simpl.
  - split; [discriminate | tauto].
  - destruct (str_eqb k0 k) eqn:E.
    + apply str_eqb_eq in E; subst; tauto.
    + rewrite IH. split; [tauto|]. intros [->|H]; [|exact H].
      rewrite str_eqb_refl in E; discriminate.
Qed.

Lemma dict_get_None_keys d k : dict_get d k = None <-> ~ In k (dict_keys d).
Proof.
  rewrite <- dict_mem_keys; unfold dict_mem.
  destruct (dict_get d k); split; congruence.
Qed.

Lemma dict_get_In d k v : dict_get d k = Some v -> In (k, v) d.
Proof.
  induction d as [|[k0 v0] d IH]; simpl; [discriminate|].
  destruct (str_eqb k0 k) eqn:E.
  - apply str_eqb_eq in E; subst. intros [= ->]; auto.
  - auto.
Qed.

Lemma dict_In_get d k v : dict_wf d -> In (k, v) d -> dict_get d k = Some v.
Proof.
  unfold dict_wf; induction d as [|[k0 v0] d IH]; simpl; [tauto|].
  intros W [E|H]; inversion W as [|? ? Hn Hd]; subst.
  - injection E as -> ->. rewrite str_eqb_refl; reflexivity.
  - destruct (str_eqb k0 k) eqn:E.
    + apply str_eqb_eq in E; subst k0. exfalso; apply Hn.
      apply (in_map fst) in H; exact H.
    + auto.
Qed.

Lemma dict_keys_set d k v :
  dict_keys (dict_set d k v) =
  if dict_mem d k then dict_keys d else dict_keys d ++ [k].
Proof.
  unfold dict_mem; induction d as [|[k0 v0] d IH]; simpl; [reflexivity|].
  destruct (str_eqb k0 k) eqn:E; simpl; [reflexivity|].
  rewrite IH. destruct (dict_get d k); reflexivity.
Qed.

Lemma dict_set_wf d k v : dict_wf d -> dict_wf (dict_set d k v).
Proof.
  unfold dict_wf; intros W. rewrite dict_keys_set.
  destruct (dict_mem d k) eqn:E; [exact W|].
  apply NoDup_app; [exact W | repeat constructor; simpl; tauto|].
  intros x Hx [<-|[]]. apply dict_mem_keys in Hx; congruence.
Qed.

Lemma dict_mem_set d k k' v :
  dict_mem (dict_set d k v) k' = str_eqb k k' || dict_mem d k'.
Proof.
  unfold dict_mem. destruct (str_eqb k k') eqn:E.
  - apply str_eqb_eq in E; subst. rewrite dict_get_set_same; reflexivity.
  - rewrite dict_get_set_other; [reflexivity|].
    intros ->; rewrite str_eqb_refl in E; discriminate.
Qed.


End DictFacts.

(* ------------------------------------------------------------------ *)
(** * The summarizer *)

#[local] Arguments u : simpl never.

Lemma summary_neq_flag : u "summary" <> u "flag".
Proof. discriminate. Qed.

Lemma truncated_length (s : pystr) :
  MAX_SUMMARY_LENGTH < length s ->
  length (firstn (MAX_SUMMARY_LENGTH - 1) s ++ [ELLIPSIS]) = MAX_SUMMARY_LENGTH.
Proof.
  unfold MAX_SUMMARY_LENGTH; intros H.
  rewrite length_app, length_firstn; simpl length; lia.
Qed.

Lemma validate_long (d : pydict json) (s : pystr) :
  dict_get d (u "summary") = Some (JStr s) ->
  MAX_SUMMARY_LENGTH < length s ->
  validate (JDict d) = Ok (JDict (truncated_reply d s)).
Proof.
  intros Hs Hl. unfold validate, truncated_reply, py_get; simpl bind.
  rewrite Hs; simpl.
  apply Nat.ltb_lt in Hl; rewrite Hl; simpl.
  rewrite (dict_get_set_other d _ _ _ summary_neq_flag).
  unfold get_or. destruct (dict_get d (u "flag")) as [f|]; simpl.
  - destruct (truthy f); reflexivity.
  - reflexivity.
Qed.

Lemma validate_as_is (d : pydict json) :
  (dict_get d (u "summary") = None \/
   exists s, dict_get d (u "summary") = Some (JStr s)
             /\ length s <= MAX_SUMMARY_LENGTH) ->
  validate (JDict d) = Ok (JDict d).
Proof.
  unfold validate, py_get; simpl bind. intros [H|[s [H L]]]; rewrite H; simpl.
  - reflexivity.
  - destruct (Nat.ltb_spec MAX_SUMMARY_LENGTH (length s)); [lia | reflexivity].
Qed.

Lemma validate_dict (r r' : json) :
  validate r = Ok r' -> exists d, r' = JDict d.
Proof.
  unfold validate. destruct r as [| | | | |l|d]; simpl; try discriminate.
  destruct (get_or (dict_get d (u "summary")) (JStr [])) as [| | | |s|l|d'] eqn:E;
    unfold get_or in E; rewrite E; simpl; try discriminate.
  - destruct (MAX_SUMMARY_LENGTH <? length s); simpl.
    + match goal with |- context [truthy ?f] => destruct (truthy f) end;
        simpl; intros [= <-]; eauto.
    + intros [= <-]; eauto.
  - destruct (MAX_SUMMARY_LENGTH <? length l); simpl; [discriminate|].
    intros [= <-]; eauto.
  - destruct (MAX_SUMMARY_LENGTH <? length d'); simpl; [discriminate|].
    intros [= <-]; eauto.
Qed.

Section SummarizerFacts.

Variable json_loads : pystr -> res json.
Variable cl : client.

Lemma generate_summary_dict n text b num :
  exists d, fst (generate_summary json_loads cl n text b num) = JDict d.
Proof.
  unfold generate_summary, short_record, fallback_record.
  destruct (length text <=? MAX_SUMMARY_LENGTH); simpl; eauto.
  destruct (attempt json_loads cl n _) as [r|e] eqn:E; simpl; eauto.
  unfold attempt in E.
  destruct (cl n _) as [raw|]; simpl in E; [|discriminate].
  destruct (json_loads _) as [v|]; simpl in E; [|discriminate].
  eapply validate_dict; eauto.
Qed.

Lemma generate_summary_short n text b num :
  length text <= MAX_SUMMARY_LENGTH ->
  generate_summary json_loads cl n text b num = (short_record text, n).
Proof.
  intros H; unfold generate_summary.
  apply Nat.leb_le in H; rewrite H; reflexivity.
Qed.

Lemma generate_summary_long n text b num :
  MAX_SUMMARY_LENGTH < length text ->
  generate_summary json_loads cl n text b num =
  match attempt json_loads cl n (build_prompt text b num) with
  | Ok result => (result, S n)
  | Raise e => (fallback_record text e, S n)
  end.
Proof.
  intros H; unfold generate_summary.
  destruct (Nat.leb_spec (length text) MAX_SUMMARY_LENGTH); [lia | reflexivity].
Qed.

Lemma attempt_fails n text b num e :
  call_fails json_loads cl n text b num e ->
  attempt json_loads cl n (build_prompt text b num) = Raise e.
Proof.
  unfold attempt, call_fails, the_request.
  intros [H|[(raw & H1 & H2)|(raw & v & H1 & H2 & H3)]].
  - rewrite H; reflexivity.
  - rewrite H1; simpl. rewrite H2; reflexivity.
  - rewrite H1; simpl. rewrite H2; simpl. exact H3.
Qed.

Lemma attempt_decodes n text b num d :
  call_decodes json_loads cl n text b num d ->
  attempt json_loads cl n (build_prompt text b num) = validate (JDict d).
Proof.
  unfold attempt, call_decodes, the_request. intros [raw [H1 H2]].
  rewrite H1; simpl. rewrite H2; reflexivity.
Qed.

End SummarizerFacts.

(* ------------------------------------------------------------------ *)
(** * The batch driver *)

Lemma prefix_nil {A} (P : A -> Prop) (base : list A) :
  exists new, base = new ++ base /\ Forall P new.
Proof. exists []; split; [reflexivity | constructor]. Qed.

Lemma prefix_cons {A} (P : A -> Prop) (base : list A) a l :
  P a ->
  (exists new, l = new ++ base /\ Forall P new) ->
  exists new, a :: l = new ++ base /\ Forall P new.
Proof.
  intros Pa [new [-> F]]. exists (a :: new); split; [reflexivity|].
  constructor; assumption.
Qed.

Ltac new_states :=
  repeat first [ apply prefix_nil | apply prefix_cons; [cbn; tauto|] ].

Section DriverFacts.

Variable json_loads : pystr -> res json.
Variable cl : client.

Lemma printable_dict (d : pydict json) :
  printable (JDict d) = true ->
  exists x, dict_get d (u "summary") = Some x.
Proof.
  unfold printable; simpl. destruct (dict_get d (u "summary")); eauto.
  discriminate.
Qed.

Lemma truthy_flag_present (d : pydict json) :
  truthy (get_or (dict_get d (u "flag")) JNull) = true ->
  exists x, dict_get d (u "flag") = Some x /\ truthy x = true.
Proof.
  destruct (dict_get d (u "flag")); simpl; eauto. discriminate.
Qed.

(** One iteration, in full. *)
Lemma loop_body_result (text : pystr) (inf : info) (h : history) :
  let st := now h in
  let gs := generate_summary json_loads cl (requests st) text
              (info_badge inf) (info_number inf) in
  let s' := dict_set (summaries st) text (fst gs) in
  forall r h', loop_body json_loads cl (text, inf) h = (r, h') ->
    summaries (now h') = s'
    /\ requests (now h') = snd gs
    /\ processed (now h') = S (processed st)
    /\ (r = Ok tt <-> printable (fst gs) = true)
    /\ exists new, states h' = new ++ states h
                   /\ Forall (step_state (summaries st) s' (CHECKPOINT_FILE st)) new.
Proof.
  intros st gs s' r h'. subst s' gs.
  destruct (generate_summary_dict json_loads cl (requests st) text
              (info_badge inf) (info_number inf)) as [d Hd].
  unfold loop_body, call_generate_summary, save_checkpoint, bind_prog, gets,
    modify, lift, ret, states, step_state.
  cbn [now earlier summaries flagged processed CHECKPOINT_FILE requests].
  fold st.
  destruct (generate_summary json_loads cl (requests st) text
              (info_badge inf) (info_number inf)) as [result n'].
  simpl in Hd; subst result.
  cbn [now earlier summaries flagged processed CHECKPOINT_FILE requests fst snd].
  unfold printable.
  destruct (summary <- py_getitem (JDict d) (u "summary");;
            py_slice_to 50 summary) as [y|e] eqn:Hp.
  2:{ intros [= <- <-]; cbn.
      repeat split; try discriminate; try congruence; try lia; new_states. }
  assert (Hs : exists x, dict_get d (u "summary") = Some x).
  { apply printable_dict. unfold printable. rewrite Hp; reflexivity. }
  destruct Hs as [x Hx].
  cbn [py_get py_getitem]. rewrite Hx.
  destruct (truthy (match dict_get d (u "flag") with
                    | Some x0 => x0 | None => JNull end)) eqn:Ht.
  - destruct (truthy_flag_present d Ht) as [fl [Hf _]]. rewrite Hf.
    cbn [now earlier summaries flagged processed CHECKPOINT_FILE requests].
    destruct ((processed st + 1) mod BATCH_SIZE =? 0);
      intros [= <- <-]; cbn;
      (repeat split; try congruence; try lia; new_states).
  - cbn [now earlier summaries flagged processed CHECKPOINT_FILE requests].
    destruct ((processed st + 1) mod BATCH_SIZE =? 0);
      intros [= <- <-]; cbn;
      (repeat split; try congruence; try lia; new_states).
Qed.

Section Invariant.

Variable Q : pydict json -> option (pydict json) -> Prop.
Hypothesis Q_save : forall s f, Q s f -> Q s (Some s).

Lemma loop_body_inv (item : pystr * info) (h : history) :
  (forall n s f,
      Q s f -> Q (dict_set s (fst item) (result_of json_loads cl n item)) f) ->
  Forall (state_inv Q) (states h) ->
  Forall (state_inv Q) (states (snd (loop_body json_loads cl item h))).
Proof.
  destruct item as [text inf]. intros Hset Hh.
  destruct (loop_body json_loads cl (text, inf) h) as [r h'] eqn:E.
  destruct (loop_body_result text inf h r h' E) as (_ & _ & _ & _ & new & Hn & F).
  simpl snd; rewrite Hn.
  apply Forall_app; split; [|exact Hh].
  assert (Q0 : Q (summaries (now h)) (CHECKPOINT_FILE (now h))).
  { inversion Hh; assumption. }
  pose proof (Hset (requests (now h)) _ _ Q0) as Q1.
  unfold result_of in Q1; cbn [fst snd] in Q1.
  eapply Forall_impl; [|exact F].
  intros x Hx; unfold state_inv.
  destruct Hx as [[-> ->]|[[-> ->]|[-> ->]]];
    [exact Q0 | exact Q1 | apply (Q_save _ _ Q1)].
Qed.

Lemma for_each_inv (items : list (pystr * info)) (h : history) :
  (forall item n s f, In item items -> Q s f ->
                      Q (dict_set s (fst item)
                                  (result_of json_loads cl n item)) f) ->
  Forall (state_inv Q) (states h) ->
  Forall (state_inv Q) (states (snd (for_each items (loop_body json_loads cl) h))).
Proof.
  revert h; induction items as [|item items IH]; intros h Hset Hh; simpl.
  - exact Hh.
  - unfold bind_prog.
    pose proof (loop_body_inv item h (fun n s f => Hset item n s f (or_introl eq_refl)) Hh) as H1.
    destruct (loop_body json_loads cl item h) as [[[]|e] h1]; simpl in *.
    + apply IH; [|exact H1]. intros; apply Hset; simpl; auto.
    + exact H1.
Qed.

End Invariant.

(** The states of a history stay in every history that extends it. *)
Lemma for_each_extends (items : list (pystr * info)) (h : history) :
  exists new,
    states (snd (for_each items (loop_body json_loads cl) h)) = new ++ states h.
Proof.
  revert h; induction items as [|[text inf] items IH]; intros h; cbn [for_each].
  - exists []; reflexivity.
  - unfold bind_prog.
    destruct (loop_body json_loads cl (text, inf) h) as [r h1] eqn:E.
    destruct (loop_body_result text inf h r h1 E) as (_ & _ & _ & _ & new & Hn & _).
    destruct r as [[]|e]; cbv beta iota.
    + destruct (IH h1) as [new' H']. rewrite H', Hn.
      exists (new' ++ new). rewrite app_assoc; reflexivity.
    + simpl snd; eauto.
Qed.

(** No iteration raises when every record to come is printable. *)
Lemma for_each_ok (items : list (pystr * info)) (h : history) :
  (forall item n,
      In item items -> printable (result_of json_loads cl n item) = true) ->
  fst (for_each items (loop_body json_loads cl) h) = Ok tt.
Proof.
  revert h; induction items as [|[text inf] items IH]; intros h Hp;
    cbn [for_each].
  - reflexivity.
  - unfold bind_prog.
    destruct (loop_body json_loads cl (text, inf) h) as [r h1] eqn:E.
    destruct (loop_body_result text inf h r h1 E) as (_ & _ & _ & Hr & _).
    assert (r = Ok tt) as ->.
    { apply Hr. apply (Hp (text, inf) (requests (now h))). simpl; auto. }
    apply IH. intros; apply Hp; simpl; auto.
Qed.

(** When the loop ends normally, every item has a record. *)
Lemma for_each_members (items : list (pystr * info)) (h h' : history) :
  for_each items (loop_body json_loads cl) h = (Ok tt, h') ->
  forall k, In k (map fst items) \/ dict_mem (summaries (now h)) k = true ->
            dict_mem (summaries (now h')) k = true.
Proof.
  revert h; induction items as [|[text inf] items IH]; intros h;
    cbn [for_each map fst].
  - unfold ret; intros [= <-] k [[]|H]; exact H.
  - unfold bind_prog.
    destruct (loop_body json_loads cl (text, inf) h) as [r h1] eqn:E.
    destruct (loop_body_result text inf h r h1 E) as (Hs & _).
    destruct r as [[]|e]; [|discriminate].
    intros H k Hk. apply (IH h1 H).
    rewrite Hs, dict_mem_set.
    destruct Hk as [[<-|Hk]|Hk]; auto.
    + right. rewrite str_eqb_refl; reflexivity.
    + right. rewrite Hk; apply orb_true_r.
Qed.

End DriverFacts.

(* ------------------------------------------------------------------ *)
(** * Dict comprehensions *)

Lemma dict_keys_set_In {V} (d : pydict V) k k' v :
  In k' (dict_keys (dict_set d k v)) <-> k' = k \/ In k' (dict_keys d).
Proof.
  rewrite <- !dict_mem_keys, dict_mem_set, orb_true_iff, str_eqb_eq.
  intuition congruence.
Qed.

Section CompFacts.
Context {A B : Type}.
Variable f : pystr -> A -> res (option B).

Lemma dict_comp_from_total (d : pydict A) (acc : pydict B) :
  (forall k v, In (k, v) d -> exists o, f k v = Ok o) ->
  exists out, dict_comp_from acc f d = Ok out.
Proof.
  revert acc; induction d as [|[k v] d IH]; intros acc H; simpl; eauto.
  destruct (H k v (or_introl eq_refl)) as [o ->]; simpl.
  apply IH; intros; apply H; simpl; auto.
Qed.

Lemma dict_comp_from_skip (d : pydict A) (acc : pydict B) :
  (forall k v, In (k, v) d -> f k v = Ok None) ->
  dict_comp_from acc f d = Ok acc.
Proof.
  revert acc; induction d as [|[k v] d IH]; intros acc H; simpl; auto.
  rewrite (H k v (or_introl eq_refl)); simpl.
  apply IH; intros; apply H; simpl; auto.
Qed.


Lemma dict_comp_from_wf (d : pydict A) (acc out : pydict B) :
  dict_comp_from acc f d = Ok out -> dict_wf acc -> dict_wf out.
Proof.
  revert acc; induction d as [|[k v] d IH]; intros acc; simpl.
  - intros [= <-]; auto.
  - destruct (f k v) as [o|e]; simpl; [|discriminate].
    intros H W. apply (IH _ H). destruct o; [apply dict_set_wf|]; exact W.
Qed.

(** The keys of the result: those of [acc], and the keys of [d] whose
    item passes the condition. *)
Lemma dict_comp_from_keys (d : pydict A) (acc out : pydict B) :
  dict_comp_from acc f d = Ok out ->
  forall k, In k (dict_keys out) <->
            In k (dict_keys acc) \/
            exists v b, In (k, v) d /\ f k v = Ok (Some b).
Proof.
  revert acc; induction d as [|[k0 v0] d IH]; intros acc; simpl.
  - intros [= <-] k. split; [tauto|]. intros [H|(v & b & [] & _)]; exact H.
  - destruct (f k0 v0) as [o|e] eqn:E; simpl; [|discriminate].
    intros H k. rewrite (IH _ H k). split.
    + intros [Hk|(v & b & Hin & Hf)]; [|right; eauto].
      destruct o as [b|]; [|auto].
      apply dict_keys_set_In in Hk as [->|Hk]; [right; eauto | auto].
    + intros [Hk|(v & b & [Heq|Hin] & Hf)]; [| |right; eauto].
      * left. destruct o; [apply dict_keys_set_In|]; auto.
      * injection Heq as -> ->. rewrite Hf in E; injection E as <-.
        left. apply dict_keys_set_In; auto.
Qed.

(** With distinct keys, the result maps each passing key to its value. *)
Lemma dict_comp_from_get (d : pydict A) (acc out : pydict B) :
  dict_comp_from acc f d = Ok out ->
  dict_wf d ->
  (forall k, In k (dict_keys d) -> dict_get acc k = None) ->
  forall k b,
    dict_get out k = Some b <->
    dict_get acc k = Some b \/ exists v, In (k, v) d /\ f k v = Ok (Some b).
Proof.
  unfold dict_wf.
  revert acc; induction d as [|[k0 v0] d IH]; intros acc; simpl.
  - intros [= <-] _ _ k b. split; [tauto|]. intros [H|(v & [] & _)]; exact H.
  - destruct (f k0 v0) as [o|e] eqn:E; simpl; [|discriminate].
    intros H W Hacc k b. inversion W as [|? ? Hn Hd]; subst.
    assert (Hfresh : forall k', In k' (dict_keys d) ->
                                dict_get (comp_step acc k0 o) k' = None).
    { intros k' Hk'. destruct o as [b0|]; simpl; [|auto].
      rewrite dict_get_set_other; [auto|]. intros ->; contradiction. }
    rewrite (IH _ H Hd Hfresh k b). split.
    + intros [Hg|(v & Hin & Hf)]; [|right; eauto].
      destruct o as [b0|]; simpl in Hg; [|auto].
      destruct (str_eqb k0 k) eqn:Ek.
      * apply str_eqb_eq in Ek; subst k0.
        rewrite dict_get_set_same in Hg; injection Hg as ->. right; eauto.
      * rewrite dict_get_set_other in Hg; [auto|].
        intros ->; rewrite str_eqb_refl in Ek; discriminate.
    + intros [Hg|(v & [Heq|Hin] & Hf)]; [| |right; eauto].
      * left. destruct o as [b0|]; simpl; [|exact Hg].
        rewrite dict_get_set_other; [exact Hg|].
        intros ->. rewrite (Hacc k (or_introl eq_refl)) in Hg; discriminate.
      * injection Heq as -> ->. rewrite Hf in E; injection E as <-.
        left; simpl. apply dict_get_set_same.
Qed.

End CompFacts.

Lemma dict_comp_from_each {A B} (f : pystr -> A -> res (option B))
      (d : pydict A) (acc out : pydict B) :
  dict_comp_from acc f d = Ok out ->
  forall k v, In (k, v) d -> exists o, f k v = Ok o.
Proof.
  revert acc; induction d as [|[k0 v0] d IH]; intros acc; simpl.
  - intros _ k v [].
  - destruct (f k0 v0) as [o|e] eqn:E; simpl; [|discriminate].
    intros H k v [Heq|Hin]; [injection Heq as <- <-; eauto | eauto].
Qed.

Lemma filter_unprocessed_spec (s0 : pydict json) (ut : pydict info) :
  exists tp, filter_unprocessed s0 ut = Ok tp
             /\ forall k, In k (dict_keys tp) <->
                          In k (dict_keys ut) /\ dict_mem s0 k = false.
Proof.
  unfold filter_unprocessed, dict_comp.
  destruct (dict_comp_from_total
              (fun k (v : info) => Ok (if dict_mem s0 k then None else Some v))
              ut []) as [tp Htp]; [eauto|].
  exists tp; split; [exact Htp|]. intros k.
  rewrite (dict_comp_from_keys _ _ _ _ Htp k). simpl. split.
  - intros [[]|(v & b & Hin & Hf)]. split.
    + apply (in_map fst) in Hin; exact Hin.
    + destruct (dict_mem s0 k); [discriminate | reflexivity].
  - intros [Hin Hm]. right.
    apply in_map_iff in Hin as [[k' v] [Hk Hin]]; simpl in Hk; subst k'.
    exists v, v. rewrite Hm; auto.
Qed.

(* ------------------------------------------------------------------ *)
(** * process and main *)

Section MainFacts.

Variable json_loads : pystr -> res json.
Variable cl : client.

Lemma process_unfold (ut : pydict info) (h : history) :
  exists tp,
    filter_unprocessed (summaries (now h)) ut = Ok tp
    /\ (forall k, In k (dict_keys tp) <->
                  In k (dict_keys ut) /\ dict_mem (summaries (now h)) k = false)
    /\ process json_loads cl ut h =
       match tp with
       | [] => (Ok tt, h)
       | _ => (for_each tp (loop_body json_loads cl) ;;; save_checkpoint) h
       end.
Proof.
  destruct (filter_unprocessed_spec (summaries (now h)) ut) as [tp [Htp Hk]].
  exists tp; repeat split; try apply Hk; auto.
  unfold process, bind_prog at 1 2, gets, lift. rewrite Htp.
  destruct tp; reflexivity.
Qed.

Lemma process_inv (Q : pydict json -> option (pydict json) -> Prop)
      (ut : pydict info) (h : history) :
  (forall s f, Q s f -> Q s (Some s)) ->
  (forall item n s f,
      dict_mem (summaries (now h)) (fst item) = false ->
      Q s f -> Q (dict_set s (fst item) (result_of json_loads cl n item)) f) ->
  Forall (state_inv Q) (states h) ->
  Forall (state_inv Q) (states (snd (process json_loads cl ut h))).
Proof.
  intros Qs Hset Hh.
  destruct (process_unfold ut h) as (tp & Htp & Hk & ->).
  destruct tp as [|it tp]; [exact Hh|].
  set (items := it :: tp) in *. clearbody items.
  assert (F : Forall (state_inv Q)
                (states (snd (for_each items (loop_body json_loads cl) h)))).
  { apply for_each_inv; auto.
    intros item n s f Hin. apply Hset. apply Hk.
    apply (in_map fst) in Hin; exact Hin. }
  unfold bind_prog.
  destruct (for_each items (loop_body json_loads cl) h) as [[[]|e] h1];
    simpl in *; [|exact F].
  constructor; [|exact F].
  inversion F as [|? ? H1 H2]; subst. unfold state_inv in *; simpl.
  apply (Qs _ _ H1).
Qed.

Lemma process_extends (ut : pydict info) (h : history) :
  exists new, states (snd (process json_loads cl ut h)) = new ++ states h.
Proof.
  destruct (process_unfold ut h) as (tp & _ & _ & ->).
  destruct tp as [|it tp]; [exists []; reflexivity|].
  set (items := it :: tp); clearbody items.
  unfold bind_prog.
  destruct (for_each_extends json_loads cl items h) as [new Hn].
  destruct (for_each items (loop_body json_loads cl) h) as [[[]|e] h1];
    simpl snd in *.
  - eexists (_ :: new). unfold save_checkpoint, modify, states in *.
    simpl. rewrite Hn. reflexivity.
  - eauto.
Qed.

(** Nothing raises when every record to come is printable. *)
Lemma process_ok (ut : pydict info) (h : history) :
  (forall item n, printable (result_of json_loads cl n item) = true) ->
  fst (process json_loads cl ut h) = Ok tt.
Proof.
  intros Hp. destruct (process_unfold ut h) as (tp & _ & _ & ->).
  destruct tp as [|it tp]; [reflexivity|].
  set (items := it :: tp); clearbody items.
  unfold bind_prog.
  pose proof (for_each_ok json_loads cl items h (fun item n _ => Hp item n)) as H.
  destruct (for_each items (loop_body json_loads cl) h) as [r h1];
    simpl in H; subst r. reflexivity.
Qed.

(** After a normal end every unique text has a record, and the file holds
    the mapping (when there was nothing to process, the mapping is still
    the one [h] has). *)
Lemma process_complete (ut : pydict info) (h h' : history) :
  process json_loads cl ut h = (Ok tt, h') ->
  (forall k, In k (dict_keys ut) -> dict_mem (summaries (now h')) k = true)
  /\ (h' = h \/ CHECKPOINT_FILE (now h') = Some (summaries (now h'))).
Proof.
  destruct (process_unfold ut h) as (tp & _ & Hk & ->).
  destruct tp as [|it tp].
  - intros [= <-]. split; [|auto]. intros k Hin.
    destruct (dict_mem (summaries (now h)) k) eqn:E; [reflexivity|].
    destruct (proj2 (Hk k) (conj Hin E)).
  - set (items := it :: tp) in *; clearbody items.
    unfold bind_prog.
    destruct (for_each items (loop_body json_loads cl) h) as [[[]|e] h1] eqn:E;
      [|discriminate].
    unfold save_checkpoint, modify. intros [= <-]; simpl. split; [|auto].
    intros k Hin. apply (for_each_members json_loads cl items h h1 E).
    destruct (dict_mem (summaries (now h)) k) eqn:Em; [auto|].
    left. apply Hk; auto.
Qed.

(** With a complete checkpoint nothing happens. *)
Lemma process_nothing (ut : pydict info) (h : history) :
  (forall k, In k (dict_keys ut) -> dict_mem (summaries (now h)) k = true) ->
  process json_loads cl ut h = (Ok tt, h).
Proof.
  intros Hc. destruct (process_unfold ut h) as (tp & _ & Hk & ->).
  destruct tp as [|[k i] tp]; [reflexivity|].
  destruct (proj1 (Hk k) (or_introl eq_refl)) as [Hin Hm].
  rewrite (Hc k Hin) in Hm; discriminate.
Qed.

End MainFacts.

(* ------------------------------------------------------------------ *)
(** * Properties of the summarizer *)

Import Examples.

(** What an iteration stores for its text, whatever the record. *)
Lemma loop_body_stores json_loads cl text inf h r h' :
  loop_body json_loads cl (text, inf) h = (r, h') ->
  dict_get (summaries (now h')) text =
  Some (fst (generate_summary json_loads cl (requests (now h)) text
               (info_badge inf) (info_number inf)))
  /\ (r = Ok tt <->
      printable (fst (generate_summary json_loads cl (requests (now h)) text
                        (info_badge inf) (info_number inf))) = true).
Proof.
  intros E.
  destruct (loop_body_result json_loads cl text inf h r h' E)
    as (Hs & _ & _ & Hr & _).
  split; [|exact Hr]. rewrite Hs. apply dict_get_set_same.
Qed.

(** C6. For every text of at most 40 characters, [generate_summary]
    returns the record with the text unchanged as summary and a null flag,
    whatever the decoder and the service are, and the number of requests
    sent to the service is the same after the call as before: no request
    is made. *)
Theorem short_text_returned_without_request :
  forall (json_loads : pystr -> res json) (cl : client) (n : nat)
         (text badge_name req_number : pystr),
    length text <= 40 ->
    generate_summary json_loads cl n text badge_name req_number =
    (JDict [(u "summary", JStr text); (u "flag", JNull)], n).
Proof.
  intros. apply generate_summary_short. assumption.
Qed.

(** The 17-character text "Tie a square knot", with a service that cannot
    be reached. *)
Lemma short_text_returned_without_request_witness :
  generate_summary JsonDecoder.json_loads unreachable 0 square_knot
                   (u "Pioneering") (u "2") =
  (JDict [(u "summary", JStr square_knot); (u "flag", JNull)], 0).
Proof.
  apply (short_text_returned_without_request JsonDecoder.json_loads
           unreachable 0 square_knot (u "Pioneering") (u "2")).
  vm_compute. repeat constructor.
Defined.

(** The fallback, stored: shared by the statements on failures. *)
Lemma failure_fallback_stored
      (json_loads : pystr -> res json) (cl : client)
      (text : pystr) (inf : info) (h : history) (e : exn) :
  40 < length text ->
  call_fails json_loads cl (requests (now h)) text
             (info_badge inf) (info_number inf) e ->
  exists h',
    loop_body json_loads cl (text, inf) h = (Ok tt, h')
    /\ dict_get (summaries (now h')) text =
       Some (JDict [(u "summary", JStr (firstn 39 text ++ [ELLIPSIS]));
                    (u "flag", JStr (u "API error: " ++ firstn 50 e))]).
Proof.
  intros Hl Hf.
  destruct (loop_body json_loads cl (text, inf) h) as [r h'] eqn:E.
  destruct (loop_body_stores _ _ _ _ _ _ _ E) as [Hs Hr].
  rewrite (generate_summary_long _ _ _ _ _ _ Hl) in Hs, Hr.
  rewrite (attempt_fails _ _ _ _ _ _ _ Hf) in Hs, Hr.
  exists h'. split; [|exact Hs].
  f_equal. apply Hr. reflexivity.
Qed.

(** C3. For every text of more than 40 characters, when the request to
    the service raises, or the reply cannot be decoded, or the decoded
    value makes the length validation raise, the iteration ends
    normally and the record stored for the text has as summary the first
    39 characters of the text followed by the ellipsis character (40
    characters in all) and as flag the string "API error: " followed by the
    first 50 characters of the exception's message: a string, not null. *)
Theorem service_failure_stores_truncated_original :
  forall (json_loads : pystr -> res json) (cl : client)
         (text : pystr) (inf : info) (h : history) (e : exn),
    40 < length text ->
    call_fails json_loads cl (requests (now h)) text
               (info_badge inf) (info_number inf) e ->
    exists h',
      loop_body json_loads cl (text, inf) h = (Ok tt, h')
      /\ dict_get (summaries (now h')) text =
         Some (JDict [(u "summary", JStr (firstn 39 text ++ [ELLIPSIS]));
                      (u "flag", JStr (u "API error: " ++ firstn 50 e))])
      /\ length (firstn 39 text ++ [ELLIPSIS]) = 40
      /\ JStr (u "API error: " ++ firstn 50 e) <> JNull.
Proof.
  intros json_loads cl text inf h e Hl Hf.
  destruct (failure_fallback_stored json_loads cl
              text inf h e Hl Hf) as (h' & E & Hs).
  exists h'. repeat split.
  - exact E.
  - exact Hs.
  - apply (truncated_length text Hl).
  - discriminate.
Qed.

(** The bowline text, with a service that cannot be reached. *)
Lemma service_failure_stores_truncated_original_witness :
  exists h',
    loop_body JsonDecoder.json_loads unreachable (bowline, pioneering_1a) fresh
    = (Ok tt, h')
    /\ dict_get (summaries (now h')) bowline =
       Some (JDict [(u "summary", JStr (firstn 39 bowline ++ [ELLIPSIS]));
                    (u "flag", JStr (u "API error: "
                                       ++ firstn 50 (u "Connection error.")))])
    /\ length (firstn 39 bowline ++ [ELLIPSIS]) = 40
    /\ JStr (u "API error: " ++ firstn 50 (u "Connection error.")) <> JNull.
Proof.
  apply (service_failure_stores_truncated_original JsonDecoder.json_loads
           unreachable bowline pioneering_1a fresh (u "Connection error.")).
  - vm_compute. repeat constructor.
  - left. reflexivity.
Defined.

(** C4. For every reply that decodes to a JSON object whose "summary" is
    a string of more than 40 characters, the iteration ends normally and
    the stored record has as summary the first 39 characters of the
    reply's summary followed by the ellipsis character, 40 characters in
    all; its flag is present and not null: it is "auto-truncated" when the
    reply had no flag or a flag that is null (or otherwise false), and the
    reply's own flag when that one is true. *)
Theorem long_reply_summary_truncated_and_flagged :
  forall (json_loads : pystr -> res json) (cl : client)
         (text : pystr) (inf : info) (h : history)
         (d : pydict json) (s : pystr),
    40 < length text ->
    call_decodes json_loads cl (requests (now h)) text
                 (info_badge inf) (info_number inf) d ->
    dict_get d (u "summary") = Some (JStr s) ->
    40 < length s ->
    exists h' r flag,
      loop_body json_loads cl (text, inf) h = (Ok tt, h')
      /\ dict_get (summaries (now h')) text = Some (JDict r)
      /\ dict_get r (u "summary") = Some (JStr (firstn 39 s ++ [ELLIPSIS]))
      /\ length (firstn 39 s ++ [ELLIPSIS]) = 40
      /\ dict_get r (u "flag") = Some flag
      /\ flag <> JNull
      /\ (truthy (get_or (dict_get d (u "flag")) JNull) = false ->
          flag = JStr (u "auto-truncated"))
      /\ (truthy (get_or (dict_get d (u "flag")) JNull) = true ->
          dict_get d (u "flag") = Some flag).
Proof.
  intros json_loads cl text inf h d s Hl Hd Hs Hls.
  destruct (loop_body json_loads cl (text, inf) h) as [r h'] eqn:E.
  destruct (loop_body_stores _ _ _ _ _ _ _ E) as [Hst Hr].
  rewrite (generate_summary_long _ _ _ _ _ _ Hl) in Hst, Hr.
  rewrite (attempt_decodes _ _ _ _ _ _ _ Hd) in Hst, Hr.
  rewrite (validate_long d s Hs Hls) in Hst, Hr. simpl fst in Hst, Hr.
  assert (Hsum : dict_get (truncated_reply d s) (u "summary") =
                 Some (JStr (firstn 39 s ++ [ELLIPSIS]))).
  { unfold truncated_reply.
    destruct (truthy (get_or (dict_get d (u "flag")) JNull)).
    - apply dict_get_set_same.
    - rewrite dict_get_set_other by (intros X; symmetry in X;
                                      exact (summary_neq_flag X)).
      apply dict_get_set_same. }
  assert (Hok : r = Ok tt).
  { apply Hr. unfold printable; simpl. rewrite Hsum. reflexivity. }
  subst r. exists h', (truncated_reply d s).
  pose proof (truncated_length s Hls) as Hlen.
  destruct (truthy (get_or (dict_get d (u "flag")) JNull)) eqn:Ht.
  - destruct (truthy_flag_present d Ht) as [fl [Hfl Htf]].
    exists fl. repeat split; auto.
    + unfold truncated_reply. rewrite Ht.
      rewrite (dict_get_set_other d _ _ _ summary_neq_flag). exact Hfl.
    + intros ->; discriminate.
    + discriminate.
  - exists (JStr (u "auto-truncated")). repeat split; auto.
    + unfold truncated_reply. rewrite Ht. apply dict_get_set_same.
    + discriminate.
    + discriminate.
Qed.

(** The bowline text, with a fenced reply whose summary has 50
    characters and whose flag is null. *)
Lemma long_reply_summary_truncated_and_flagged_witness :
  exists h' r flag,
    loop_body JsonDecoder.json_loads verbose (bowline, pioneering_1a) fresh
    = (Ok tt, h')
    /\ dict_get (summaries (now h')) bowline = Some (JDict r)
    /\ dict_get r (u "summary") =
       Some (JStr (firstn 39 long_summary ++ [ELLIPSIS]))
    /\ length (firstn 39 long_summary ++ [ELLIPSIS]) = 40
    /\ dict_get r (u "flag") = Some flag
    /\ flag <> JNull
    /\ (truthy (get_or (dict_get [(u "summary", JStr long_summary);
                                  (u "flag", JNull)] (u "flag")) JNull) = false
        -> flag = JStr (u "auto-truncated"))
    /\ (truthy (get_or (dict_get [(u "summary", JStr long_summary);
                                  (u "flag", JNull)] (u "flag")) JNull) = true
        -> dict_get [(u "summary", JStr long_summary); (u "flag", JNull)]
                    (u "flag") = Some flag).
Proof.
  apply (long_reply_summary_truncated_and_flagged JsonDecoder.json_loads
           verbose bowline pioneering_1a fresh
           [(u "summary", JStr long_summary); (u "flag", JNull)] long_summary).
  - vm_compute. repeat constructor.
  - exists long_reply. split; vm_compute; reflexivity.
  - reflexivity.
  - vm_compute. repeat constructor.
Defined.

(** C5, as the code has it.  The text "Demonstrate tying the bowline knot
    in under 15 seconds while blindfolded" has 72 characters; when the
    request raises with message [msg], the stored record has the summary
    "Demonstrate tying the bowline knot in u…" (the first 39 characters
    and the ellipsis character) and the flag "API error: " followed by the
    first 50 characters of [msg]. *)
Theorem bowline_record_when_unreachable :
  forall (json_loads : pystr -> res json) (cl : client) (inf : info)
         (h : history) (msg : exn),
    cl (requests (now h))
       (the_request bowline (info_badge inf) (info_number inf)) = Raise msg ->
    exists h',
      loop_body json_loads cl (bowline, inf) h = (Ok tt, h')
      /\ dict_get (summaries (now h')) bowline =
         Some (JDict
                 [(u "summary",
                   JStr (u "Demonstrate tying the bowline knot in u"
                           ++ [ELLIPSIS]));
                  (u "flag", JStr (u "API error: " ++ firstn 50 msg))])
      /\ length bowline = 72.
Proof.
  intros json_loads cl inf h msg H.
  destruct (failure_fallback_stored json_loads cl
              bowline inf h msg) as (h' & E & Hs).
  - vm_compute. repeat constructor.
  - left. exact H.
  - exists h'. repeat split; [exact E | exact Hs].
Qed.

(** The message is "Connection error.". *)
Lemma bowline_record_when_unreachable_witness :
  exists h',
    loop_body JsonDecoder.json_loads unreachable (bowline, pioneering_1a) fresh
    = (Ok tt, h')
    /\ dict_get (summaries (now h')) bowline =
       Some (JDict
               [(u "summary",
                 JStr (u "Demonstrate tying the bowline knot in u"
                         ++ [ELLIPSIS]));
                (u "flag", JStr (u "API error: "
                                   ++ firstn 50 (u "Connection error.")))])
    /\ length bowline = 72.
Proof.
  apply (bowline_record_when_unreachable JsonDecoder.json_loads unreachable
           pioneering_1a fresh (u "Connection error.")).
  reflexivity.
Defined.

(** C5 as stated fails: with the service unreachable, the summary stored
    for the bowline text is not "Demonstrate tying the bowline knot in
    und…" (which has 42 characters), and the text does not have 73
    characters. *)
Lemma bowline_claimed_record_not_stored :
  exists r,
    dict_get
      (summaries
         (now (snd (loop_body JsonDecoder.json_loads unreachable
                      (bowline, pioneering_1a) fresh))))
      bowline = Some (JDict r)
    /\ dict_get r (u "summary") <>
       Some (JStr (u "Demonstrate tying the bowline knot in und" ++ [ELLIPSIS]))
    /\ length bowline <> 73.
Proof.
  eexists. split; [vm_compute; reflexivity|]. split.
  - vm_compute. intros H. discriminate H.
  - vm_compute. intros H. discriminate H.
Qed.

(** C10. When the reply decodes to a JSON object that has no "summary",
    or whose "summary" is a string of at most 40 characters,
    [generate_summary] returns the decoded object itself: it adds no key
    and changes none.  With the reply [{}] the record returned has no
    "summary" key at all (the witness). *)
Theorem reply_object_returned_as_is :
  forall (json_loads : pystr -> res json) (cl : client) (n : nat)
         (text badge_name req_number : pystr) (d : pydict json),
    40 < length text ->
    call_decodes json_loads cl n text badge_name req_number d ->
    (dict_get d (u "summary") = None \/
     exists s, dict_get d (u "summary") = Some (JStr s) /\ length s <= 40) ->
    generate_summary json_loads cl n text badge_name req_number
    = (JDict d, S n).
Proof.
  intros json_loads cl n text b num d Hl Hd Hs.
  rewrite (generate_summary_long _ _ _ _ _ _ Hl).
  rewrite (attempt_decodes _ _ _ _ _ _ _ Hd).
  rewrite (validate_as_is d Hs). reflexivity.
Qed.

(** The reply is the empty object: the record returned is the empty
    object, which has no "summary". *)
Lemma reply_object_returned_as_is_witness :
  generate_summary JsonDecoder.json_loads bare_object 0 bowline
                   (u "Pioneering") (u "1a") = (JDict [], 1)
  /\ dict_get (@nil (pystr * json)) (u "summary") = None.
Proof.
  split; [|reflexivity].
  apply (reply_object_returned_as_is JsonDecoder.json_loads bare_object 0
           bowline (u "Pioneering") (u "1a") []).
  - vm_compute. repeat constructor.
  - exists (u "{}"). split; vm_compute; reflexivity.
  - left. reflexivity.
Defined.

(* ------------------------------------------------------------------ *)
(** * Properties of a run *)

Lemma main_run (json_loads : pystr -> res json) (env : environment) :
  api_key_set env = true ->
  main json_loads env =
  match process json_loads (service env) (load_requirements (INPUT_FILE env))
                {| now := initial_state env; earlier := [] |} with
  | (Raise e, h) => Crashed e h
  | (Ok _, h) =>
      match build_output (today env) (summaries (now h)) with
      | Raise e => Crashed e h
      | Ok out => Done out h
      end
  end.
Proof. intros H; unfold main; rewrite H; reflexivity. Qed.

Lemma run_states_main (json_loads : pystr -> res json) (env : environment) :
  run_states (main json_loads env) = [] \/
  run_states (main json_loads env) =
  states (snd (process json_loads (service env)
                 (load_requirements (INPUT_FILE env))
                 {| now := initial_state env; earlier := [] |})).
Proof.
  unfold main. destruct (negb (api_key_set env)); [left; reflexivity|].
  right.
  destruct (process _ _ _ _) as [[[]|e] h]; simpl; [|reflexivity].
  destruct (build_output _ _); reflexivity.
Qed.

(** C7. Every record the checkpoint had when it was loaded is, unchanged,
    in the mapping [summaries] and in the checkpoint file at every state
    the run goes through, however the run ends.  And one iteration of the
    loop, whether it ends normally or raises, leaves the record of every
    other text as it was, in every state it goes through, and leaves in
    the file either what was there or the mapping of that state. *)
Theorem checkpoint_records_survive :
  forall json_loads : pystr -> res json,
    (forall (env : environment) (st : state) (k : pystr) (v : json),
        In st (run_states (main json_loads env)) ->
        dict_get (load_checkpoint (checkpoint env)) k = Some v ->
        dict_get (summaries st) k = Some v
        /\ dict_get (load_checkpoint (CHECKPOINT_FILE st)) k = Some v)
    /\ (forall (cl : client) (text : pystr) (inf : info) (h : history)
               (st : state) (k : pystr),
           In st (states (snd (loop_body json_loads cl (text, inf) h))) ->
           k <> text ->
           In st (states h)
           \/ (dict_get (summaries st) k = dict_get (summaries (now h)) k
               /\ (CHECKPOINT_FILE st = CHECKPOINT_FILE (now h)
                   \/ CHECKPOINT_FILE st = Some (summaries st)))).
Proof.
  intros json_loads. split.
  - intros env st k v Hin Hcp.
    set (cp0 := load_checkpoint (checkpoint env)) in *.
    set (Q := fun (s : pydict json) (f : option (pydict json)) =>
                dict_incl cp0 s /\ dict_incl cp0 (load_checkpoint f)).
    assert (F : Forall (state_inv Q)
                  (states (snd (process json_loads (service env)
                                  (load_requirements (INPUT_FILE env))
                                  {| now := initial_state env; earlier := [] |})))).
    { apply process_inv.
      - intros s f [H1 _]; split; [exact H1 | exact H1].
      - intros item n s f Hm [H1 H2]. split; [|exact H2].
        intros k' v' Hk'. simpl in Hm. fold cp0 in Hm.
        rewrite dict_get_set_other; [auto|].
        intros <-. unfold dict_mem in Hm. rewrite Hk' in Hm; discriminate.
      - repeat constructor; unfold Q, dict_incl; simpl; auto. }
    destruct (run_states_main json_loads env) as [E|E]; rewrite E in Hin.
    + destruct Hin.
    + rewrite Forall_forall in F. destruct (F st Hin) as [H1 H2].
      split; [apply H1 | apply H2]; exact Hcp.
  - intros cl text inf h st k Hin Hk.
    destruct (loop_body json_loads cl (text, inf) h) as [r h'] eqn:E.
    destruct (loop_body_result json_loads cl text inf h r h' E)
      as (_ & _ & _ & _ & new & Hn & F).
    simpl snd in Hin. rewrite Hn in Hin.
    apply in_app_or in Hin as [Hin|Hin]; [right | left; exact Hin].
    rewrite Forall_forall in F.
    assert (Ho : forall r0, dict_get (dict_set (summaries (now h)) text r0) k
                            = dict_get (summaries (now h)) k).
    { intros r0. apply dict_get_set_other. congruence. }
    destruct (F st Hin) as [[-> ->]|[[-> ->]|[-> ->]]]; auto.
Qed.

(** A run resumed from a checkpoint that has the bowline text, with a
    service that cannot be reached: the last state of the run, and the
    state after the failing iteration on the hike text. *)
Lemma checkpoint_records_survive_witness :
  let o := main JsonDecoder.json_loads
             (env_with (Some partial_checkpoint) (u "2025-01-01") unreachable) in
  let st := hd (now fresh) (run_states o) in
  let st' := now (snd (loop_body JsonDecoder.json_loads unreachable
                         (hike, hiking_3) resumed)) in
  (dict_get (summaries st) bowline = Some bowline_record
   /\ dict_get (load_checkpoint (CHECKPOINT_FILE st)) bowline
      = Some bowline_record)
  /\ (In st' (states resumed)
      \/ (dict_get (summaries st') bowline
          = dict_get (summaries (now resumed)) bowline
          /\ (CHECKPOINT_FILE st' = CHECKPOINT_FILE (now resumed)
              \/ CHECKPOINT_FILE st' = Some (summaries st')))).
Proof.
  intros o st st'. split.
  - apply (proj1 (checkpoint_records_survive JsonDecoder.json_loads)
             (env_with (Some partial_checkpoint) (u "2025-01-01") unreachable)
             st bowline bowline_record).
    + vm_compute. left. reflexivity.
    + reflexivity.
  - apply (proj2 (checkpoint_records_survive JsonDecoder.json_loads)
             unreachable hike hiking_3 resumed st' bowline).
    + vm_compute. left. reflexivity.
    + vm_compute. intros H. discriminate H.
Defined.

(* ------------------------------------------------------------------ *)
(** * The output artifact *)




Lemma build_output_unfold (day : pystr) (s : pydict json) :
  build_output day s =
  (ss <- dict_comp summary_of s ;;
   fs <- dict_comp flag_of s ;;
   Ok {| out_version := u "1.0"; out_generated := day;
         out_summaries := ss; out_flags := fs |}).
Proof. reflexivity. Qed.

Lemma summary_of_inv k v x :
  summary_of k v = Ok (Some x) <->
  exists d, v = JDict d /\ dict_get d (u "summary") = Some x.
Proof.
  unfold summary_of. split.
  - destruct v as [| | | | | |d]; simpl; try discriminate.
    destruct (dict_get d (u "summary")) as [y|] eqn:E; simpl; [|discriminate].
    intros [= ->]; eauto.
  - intros (d & -> & H); simpl. rewrite H; reflexivity.
Qed.

Lemma flag_of_dict k d :
  flag_of k (JDict d) =
  Ok (match dict_get d (u "flag") with
      | Some fl => if truthy fl then Some fl else None
      | None => None
      end).
Proof.
  unfold flag_of; simpl. destruct (dict_get d (u "flag")) as [fl|] eqn:E; simpl.
  - destruct (truthy fl); simpl; try rewrite E; reflexivity.
  - reflexivity.
Qed.

Lemma flag_of_inv k v fl :
  flag_of k v = Ok (Some fl) ->
  exists d, v = JDict d /\ dict_get d (u "flag") = Some fl /\ truthy fl = true.
Proof.
  destruct v as [| | | | | |d]; try discriminate.
  rewrite flag_of_dict.
  destruct (dict_get d (u "flag")) as [x|] eqn:Ef; [|discriminate].
  destruct (truthy x) eqn:E; [|discriminate]. intros [= ->]; eauto.
Qed.

(** The date only goes into [generated]. *)
Lemma build_output_today (day day' : pystr) (s : pydict json) :
  build_output day' s =
  match build_output day s with
  | Ok out => Ok {| out_version := out_version out; out_generated := day';
                    out_summaries := out_summaries out;
                    out_flags := out_flags out |}
  | Raise e => Raise e
  end.
Proof.
  rewrite !build_output_unfold.
  destruct (dict_comp summary_of s); simpl; [|reflexivity].
  destruct (dict_comp flag_of s); reflexivity.
Qed.

Lemma dict_get_here {V} (d : pydict V) k v : dict_get ((k, v) :: d) k = Some v.
Proof. simpl. rewrite str_eqb_refl. reflexivity. Qed.

Lemma truncated_reply_summary (d : pydict json) (s : pystr) :
  dict_get (truncated_reply d s) (u "summary") =
  Some (JStr (firstn (MAX_SUMMARY_LENGTH - 1) s ++ [ELLIPSIS])).
Proof.
  unfold truncated_reply.
  destruct (truthy (get_or (dict_get d (u "flag")) JNull)).
  - apply dict_get_set_same.
  - rewrite dict_get_set_other
      by (intros X; symmetry in X; exact (summary_neq_flag X)).
    apply dict_get_set_same.
Qed.

Lemma truncation_short (s : pystr) :
  length (firstn (MAX_SUMMARY_LENGTH - 1) s ++ [ELLIPSIS]) <= MAX_SUMMARY_LENGTH.
Proof.
  rewrite length_app, length_firstn. unfold MAX_SUMMARY_LENGTH; simpl length.
  lia.
Qed.

(** What the validation returns when it returns. *)
Lemma validate_cases (v r : json) :
  validate v = Ok r ->
  exists d,
    v = JDict d
    /\ (r = JDict d
        \/ exists s, dict_get d (u "summary") = Some (JStr s)
                     /\ MAX_SUMMARY_LENGTH < length s
                     /\ r = JDict (truncated_reply d s)).
Proof.
  intros H. destruct v as [| | | | | |d]; try discriminate.
  exists d. split; [reflexivity|].
  destruct (dict_get d (u "summary")) as [x|] eqn:E.
  2:{ rewrite (validate_as_is d (or_introl E)) in H. injection H as <-. auto. }
  destruct x as [| | | |s|l|d0].
  1-4: unfold validate in H; simpl in H; rewrite E in H; discriminate.
  - destruct (Nat.ltb_spec MAX_SUMMARY_LENGTH (length s)) as [L|L].
    + rewrite (validate_long d s E L) in H. injection H as <-. eauto.
    + rewrite (validate_as_is d) in H by eauto. injection H as <-. auto.
  - unfold validate in H; simpl in H; rewrite E in H; simpl in H.
    destruct (MAX_SUMMARY_LENGTH <? length l); simpl in H; [discriminate|].
    injection H as <-. auto.
  - unfold validate in H; simpl in H; rewrite E in H; simpl in H.
    destruct (MAX_SUMMARY_LENGTH <? length d0); simpl in H; [discriminate|].
    injection H as <-. auto.
Qed.

Lemma validate_string_summary (v : json) d' s :
  validate v = Ok (JDict d') ->
  dict_get d' (u "summary") = Some (JStr s) ->
  length s <= MAX_SUMMARY_LENGTH.
Proof.
  intros H G. destruct (validate_cases v _ H) as (d & -> & [ E | C ]).
  - injection E as E. subst d'.
    destruct (Nat.ltb_spec MAX_SUMMARY_LENGTH (length s)) as [L|L]; [|exact L].
    rewrite (validate_long d s G L) in H. injection H as H.
    pose proof (truncated_reply_summary d s) as T. rewrite H, G in T.
    injection T as T. rewrite T at 1. apply truncation_short.
  - destruct C as (s0 & _ & _ & E). injection E as ->.
    rewrite truncated_reply_summary in G. injection G as <-.
    apply truncation_short.
Qed.


Lemma main_done_inv json_loads env out h :
  main json_loads env = Done out h ->
  api_key_set env = true
  /\ process json_loads (service env) (load_requirements (INPUT_FILE env))
             {| now := initial_state env; earlier := [] |} = (Ok tt, h)
  /\ build_output (today env) (summaries (now h)) = Ok out.
Proof.
  unfold main. destruct (api_key_set env); simpl; [|discriminate].
  destruct (process _ _ _ _) as [[[]|e] h1] eqn:Ep; [|discriminate].
  destruct (build_output _ _) as [o|e] eqn:Eb; [|discriminate].
  intros [= <- <-]. auto.
Qed.




(** C2 fails on the code: a reply that decodes to an object without
    "summary" is returned as it is (C10), and line 167 then raises
    [KeyError: 'summary'] outside every [try].  With the reply [{}] for the
    first text, the run ends there: one item counted, the other two texts
    never processed, no checkpoint written, no output. *)
Theorem reply_without_summary_halts_the_batch :
  exists h,
    main JsonDecoder.json_loads (env_with None (u "2025-01-01") bare_object)
    = Crashed (u "'summary'") h
    /\ processed (now h) = 1
    /\ dict_keys (load_requirements dump) = [bowline; square_knot; hike]
    /\ dict_mem (summaries (now h)) square_knot = false
    /\ dict_mem (summaries (now h)) hike = false
    /\ dict_get (summaries (now h)) bowline = Some (JDict [])
    /\ CHECKPOINT_FILE (now h) = None.
Proof.
  eexists. split; [vm_compute; reflexivity|].
  repeat split; vm_compute; reflexivity.
Qed.

(** C8, as the code has it.  When a run writes the output and the keys of
    the loaded checkpoint are distinct, the flags mapping has exactly the
    keys whose stored record has a flag that is true (not null, and not
    empty, zero or false), each mapped to that flag; the summaries mapping
    has every key of the checkpoint mapping, mapped to the record's
    summary; and every key of flags is a key of summaries. *)
Theorem output_flags_are_the_true_flags :
  forall (json_loads : pystr -> res json) (env : environment)
         (out : output) (h : history),
    main json_loads env = Done out h ->
    dict_wf (load_checkpoint (checkpoint env)) ->
    (forall k fl,
        dict_get (out_flags out) k = Some fl <->
        exists d, dict_get (summaries (now h)) k = Some (JDict d)
                  /\ dict_get d (u "flag") = Some fl /\ truthy fl = true)
    /\ (forall k x,
           dict_get (out_summaries out) k = Some x <->
           exists d, dict_get (summaries (now h)) k = Some (JDict d)
                     /\ dict_get d (u "summary") = Some x)
    /\ (forall k, In k (dict_keys (out_flags out)) ->
                  In k (dict_keys (out_summaries out))).
Proof.
  intros json_loads env out h Hm Hwf.
  destruct (main_done_inv _ _ _ _ Hm) as (_ & Hp & Hb).
  assert (W : dict_wf (summaries (now h))).
  { pose proof (process_inv json_loads (service env) (fun s _ => dict_wf s)
                  (load_requirements (INPUT_FILE env))
                  {| now := initial_state env; earlier := [] |}) as Hinv.
    rewrite Hp in Hinv. simpl snd in Hinv.
    assert (F : Forall (state_inv (fun s _ => dict_wf s)) (states h)).
    { apply Hinv; auto.
      - intros; apply dict_set_wf; assumption.
      - repeat constructor. exact Hwf. }
    inversion F; assumption. }
  rewrite build_output_unfold in Hb. unfold dict_comp in Hb.
  destruct (dict_comp_from [] summary_of (summaries (now h))) as [ss|] eqn:Hss;
    simpl in Hb; [|discriminate].
  destruct (dict_comp_from [] flag_of (summaries (now h))) as [fs|] eqn:Hfs;
    simpl in Hb; [|discriminate].
  injection Hb as <-. simpl.
  repeat split.
  - rewrite (dict_comp_from_get flag_of _ _ _ Hfs W (fun _ _ => eq_refl) k fl).
    intros [Hn|(v & Hin & Hf)]; [discriminate|].
    apply flag_of_inv in Hf as (d & -> & Hd & Ht).
    exists d. split; [apply (dict_In_get _ _ _ W Hin) | auto].
  - intros (d & Hg & Hd & Ht).
    apply (dict_comp_from_get flag_of _ _ _ Hfs W (fun _ _ => eq_refl) k fl).
    right. exists (JDict d). split; [apply dict_get_In; exact Hg|].
    rewrite flag_of_dict, Hd, Ht. reflexivity.
  - rewrite (dict_comp_from_get summary_of _ _ _ Hss W (fun _ _ => eq_refl) k x).
    intros [Hn|(v & Hin & Hf)]; [discriminate|].
    apply summary_of_inv in Hf as (d & -> & Hd).
    exists d. split; [apply (dict_In_get _ _ _ W Hin) | auto].
  - intros (d & Hg & Hd).
    apply (dict_comp_from_get summary_of _ _ _ Hss W (fun _ _ => eq_refl) k x).
    right. exists (JDict d). split; [apply dict_get_In; exact Hg|].
    apply summary_of_inv; eauto.
  - intros k Hk.
    apply (dict_comp_from_keys flag_of _ _ _ Hfs k) in Hk
      as [[]|(v & b & Hin & _)].
    apply (dict_comp_from_keys summary_of _ _ _ Hss k). right.
    destruct (dict_comp_from_each summary_of _ _ _ Hss k v Hin) as [o Ho].
    exists v. unfold summary_of in *.
    destruct (py_getitem v (u "summary")) as [y|]; simpl in *; [|discriminate].
    exists y. auto.
Qed.

(** A run on a checkpoint that has the three texts. *)
Lemma output_flags_are_the_true_flags_witness :
  exists out h,
    main JsonDecoder.json_loads
         (env_with (Some complete_checkpoint) (u "2025-01-01") unreachable)
    = Done out h
    /\ (forall k fl,
           dict_get (out_flags out) k = Some fl <->
           exists d, dict_get (summaries (now h)) k = Some (JDict d)
                     /\ dict_get d (u "flag") = Some fl /\ truthy fl = true)
    /\ (forall k x,
           dict_get (out_summaries out) k = Some x <->
           exists d, dict_get (summaries (now h)) k = Some (JDict d)
                     /\ dict_get d (u "summary") = Some x)
    /\ (forall k, In k (dict_keys (out_flags out)) ->
                  In k (dict_keys (out_summaries out))).
Proof.
  eexists; eexists. split; [vm_compute; reflexivity|].
  apply (output_flags_are_the_true_flags JsonDecoder.json_loads
           (env_with (Some complete_checkpoint) (u "2025-01-01") unreachable)).
  - vm_compute. reflexivity.
  - unfold dict_wf. vm_compute.
    repeat (constructor; [simpl; intuition discriminate|]). constructor.
Defined.

(** C8 as stated fails: when the service replies with the empty string as
    flag, the stored record has a flag that is not null, and its key is
    not in the flags mapping. *)
Lemma empty_flag_is_left_out :
  exists out h d fl,
    main JsonDecoder.json_loads (env_with None (u "2025-01-01") laconic)
    = Done out h
    /\ dict_get (summaries (now h)) bowline = Some (JDict d)
    /\ dict_get d (u "flag") = Some fl
    /\ fl <> JNull
    /\ dict_get (out_flags out) bowline = None.
Proof.
  do 4 eexists. split; [vm_compute; reflexivity|].
  split; [vm_compute; reflexivity|].
  split; [vm_compute; reflexivity|].
  split; [discriminate | vm_compute; reflexivity].
Qed.

(** C9, as the code has it.  After a run that wrote its output, a second
    run on the same input, starting from the checkpoint file the first
    one left, sends no request to the service, goes through no other state
    than its first, leaves the checkpoint file as it was, and writes an
    output with the same version, summaries and flags; its "generated" is
    the date of the second run, so the two outputs are identical when the
    two runs take place on the same date. *)
Theorem rerun_exports_the_same_mappings :
  forall (json_loads json_loads' : pystr -> res json)
         (env env' : environment) (out : output) (h : history),
    main json_loads env = Done out h ->
    INPUT_FILE env' = INPUT_FILE env ->
    checkpoint env' = CHECKPOINT_FILE (now h) ->
    api_key_set env' = true ->
    exists out' h',
      main json_loads' env' = Done out' h'
      /\ requests (now h') = 0
      /\ earlier h' = []
      /\ CHECKPOINT_FILE (now h') = CHECKPOINT_FILE (now h)
      /\ out_version out' = out_version out
      /\ out_summaries out' = out_summaries out
      /\ out_flags out' = out_flags out
      /\ out_generated out' = today env'
      /\ (today env' = today env -> out' = out).
Proof.
  intros json_loads json_loads' env env' out h Hm Hin Hcp Hk.
  destruct (main_done_inv _ _ _ _ Hm) as (_ & Hp & Hb).
  destruct (process_complete _ _ _ _ _ Hp) as [Hall Hfile].
  assert (Hload : load_checkpoint (checkpoint env') = summaries (now h)).
  { rewrite Hcp. destruct Hfile as [ -> | -> ]; reflexivity. }
  rewrite (main_run json_loads' env' Hk).
  rewrite process_nothing.
  2:{ simpl. rewrite Hload, Hin. exact Hall. }
  simpl now. unfold initial_state at 1. simpl summaries. rewrite Hload.
  rewrite (build_output_today (today env) (today env')), Hb.
  eexists; eexists. split; [reflexivity|].
  simpl. repeat split; auto.
  intros E. rewrite E.
  rewrite build_output_unfold in Hb.
  destruct (dict_comp summary_of _); simpl in Hb; [|discriminate].
  destruct (dict_comp flag_of _); simpl in Hb; [|discriminate].
  injection Hb as <-. reflexivity.
Qed.

(** A first run that falls back on two texts, then a second run on the
    same date from the checkpoint it left. *)
Lemma rerun_exports_the_same_mappings_witness :
  exists out h out' h',
    main JsonDecoder.json_loads
         (env_with (Some partial_checkpoint) (u "2025-01-01") unreachable)
    = Done out h
    /\ main JsonDecoder.json_loads
            (env_with (CHECKPOINT_FILE (now h)) (u "2025-01-01") verbose)
       = Done out' h'
    /\ requests (now h') = 0
    /\ earlier h' = []
    /\ CHECKPOINT_FILE (now h') = CHECKPOINT_FILE (now h)
    /\ out_version out' = out_version out
    /\ out_summaries out' = out_summaries out
    /\ out_flags out' = out_flags out
    /\ out_generated out' = u "2025-01-01"
    /\ (u "2025-01-01" = u "2025-01-01" -> out' = out).
Proof.
  assert (E : exists out h,
             main JsonDecoder.json_loads
                  (env_with (Some partial_checkpoint) (u "2025-01-01") unreachable)
             = Done out h).
  { do 2 eexists. vm_compute. reflexivity. }
  destruct E as (out & h & H1).
  destruct (rerun_exports_the_same_mappings
              JsonDecoder.json_loads JsonDecoder.json_loads
              (env_with (Some partial_checkpoint) (u "2025-01-01") unreachable)
              (env_with (CHECKPOINT_FILE (now h)) (u "2025-01-01") verbose)
              out h H1 eq_refl eq_refl eq_refl) as (out' & h' & H2).
  exists out, h, out', h'. split; [exact H1 | exact H2].
Defined.

(** C9 as stated fails: the same input and the same complete checkpoint,
    exported on two different dates, give two different outputs. *)
Lemma rerun_on_another_date_differs :
  exists out h out' h',
    main JsonDecoder.json_loads
         (env_with (Some complete_checkpoint) (u "2025-01-01") unreachable)
    = Done out h
    /\ main JsonDecoder.json_loads
            (env_with (CHECKPOINT_FILE (now h)) (u "2025-01-02") unreachable)
       = Done out' h'
    /\ requests (now h) = 0
    /\ requests (now h') = 0
    /\ out' <> out.
Proof.
  do 4 eexists. split; [vm_compute; reflexivity|].
  split; [vm_compute; reflexivity|].
  split; [vm_compute; reflexivity|].
  split; [vm_compute; reflexivity|].
  intros H. apply (f_equal out_generated) in H. vm_compute in H. discriminate H.
Qed.

(* ------------------------------------------------------------------ *)
(** * The loader *)

Lemma fold_left_flat_map {A B C} (f : A -> C -> A) (g : B -> list C)
      (l : list B) (a : A) :
  fold_left f (flat_map g l) a = fold_left (fun a x => fold_left f (g x) a) l a.
Proof.
  revert a; induction l as [|x l IH]; intros a; simpl; [reflexivity|].
  rewrite fold_left_app. apply IH.
Qed.

Lemma fold_left_map {A B C} (f : A -> C -> A) (g : B -> C) (l : list B) (a : A) :
  fold_left f (map g l) a = fold_left (fun a x => f a (g x)) l a.
Proof. revert a; induction l as [|x l IH]; intros a; simpl; auto. Qed.

Lemma fold_left_ext {A B} (f g : A -> B -> A) (l : list B) (a : A) :
  (forall a x, f a x = g a x) -> fold_left f l a = fold_left g l a.
Proof.
  intros E; revert a; induction l as [|x l IH]; intros a; simpl; [reflexivity|].
  rewrite E. apply IH.
Qed.

(** The three nested loops are one loop over [all_requirements]. *)
Lemma load_requirements_flat (data : list badge) :
  load_requirements data =
  fold_left (fun ut nr => add_requirement (fst nr) ut (snd nr))
            (all_requirements data) [].
Proof.
  unfold load_requirements, all_requirements.
  rewrite fold_left_flat_map. apply fold_left_ext. intros ut b.
  rewrite fold_left_flat_map. apply fold_left_ext. intros ut' v.
  rewrite fold_left_map. reflexivity.
Qed.

Lemma add_requirement_wf name (ut : pydict info) req :
  dict_wf ut -> dict_wf (add_requirement name ut req).
Proof.
  intros W. unfold add_requirement.
  destruct (_ && _); [|exact W].
  destruct (_ || _); [exact W | apply dict_set_wf; exact W].
Qed.

Lemma load_requirements_wf (data : list badge) : dict_wf (load_requirements data).
Proof.
  rewrite load_requirements_flat.
  assert (H : forall l (acc : pydict info),
             dict_wf acc ->
             dict_wf (fold_left (fun ut nr => add_requirement (fst nr) ut (snd nr))
                                l acc)).
  { induction l as [|nr l IH]; intros acc W; simpl; [exact W|].
    apply IH, add_requirement_wf, W. }
  apply H. constructor.
Qed.

Lemma add_requirement_get name (ut : pydict info) req k :
  dict_get (add_requirement name ut req) k =
  match dict_get ut k with
  | Some i => Some i
  | None =>
      if str_eqb (stripped_text req) k && accepted k
      then Some {| info_badge := name; info_number := get_or (req_number req) [] |}
      else None
  end.
Proof.
  unfold add_requirement, accepted. cbv zeta.
  change (strip (get_or (req_text req) [])) with (stripped_text req).
  destruct (str_eqb (stripped_text req) k) eqn:E.
  - apply str_eqb_eq in E. rewrite E. unfold dict_mem.
    destruct (dict_get ut k) as [i|] eqn:G; simpl.
    + rewrite andb_false_r. exact G.
    + rewrite andb_true_r.
      destruct (negb (length k =? 0)); simpl; [|exact G].
      destruct (_ || _); simpl; [exact G | apply dict_get_set_same].
  - assert (N : stripped_text req <> k).
    { intros X. rewrite X, str_eqb_refl in E; discriminate. }
    simpl.
    destruct (_ && _).
    + destruct (_ || _).
      * destruct (dict_get ut k); reflexivity.
      * rewrite (dict_get_set_other ut _ _ _ N).
        destruct (dict_get ut k); reflexivity.
    + destruct (dict_get ut k); reflexivity.
Qed.

(** Lookup in the result of the loader. *)
Lemma load_requirements_get (data : list badge) (k : pystr) :
  dict_get (load_requirements data) k = provenance data k.
Proof.
  rewrite load_requirements_flat. unfold provenance.
  assert (H : forall l (acc : pydict info),
             dict_get (fold_left (fun ut nr => add_requirement (fst nr) ut (snd nr))
                                 l acc) k =
             match dict_get acc k with
             | Some i => Some i
             | None =>
                 if accepted k then
                   match find (fun nr => str_eqb (stripped_text (snd nr)) k) l with
                   | Some (name, req) =>
                       Some {| info_badge := name;
                               info_number := get_or (req_number req) [] |}
                   | None => None
                   end
                 else None
             end).
  { induction l as [|[name req] l IH]; intros acc; simpl.
    - destruct (dict_get acc k); [reflexivity|].
      destruct (accepted k); reflexivity.
    - rewrite IH, add_requirement_get.
      destruct (dict_get acc k); [reflexivity|].
      destruct (str_eqb (stripped_text req) k); simpl; [|reflexivity].
      destruct (accepted k); reflexivity. }
  rewrite H. reflexivity.
Qed.

(** X1. Looking a text up in the result of [load_requirements] gives the
    badge name and the number of the first requirement of the dump, in
    the order of the nested loops, whose stripped text is that text; it
    gives nothing when the text is empty, starts with "NOTE:" or with
    "<b>NOTE:</b>", or is the stripped text of no requirement. *)
Theorem load_requirements_first_occurrence :
  forall (data : list badge) (k : pystr),
    dict_get (load_requirements data) k = provenance data k.
Proof. exact load_requirements_get. Qed.

(* ------------------------------------------------------------------ *)
(** * What the driver processes *)

Lemma dict_set_fresh {V} (d : pydict V) k v :
  dict_mem d k = false -> dict_set d k v = d ++ [(k, v)].
Proof.
  unfold dict_mem. induction d as [|[k0 v0] d IH]; simpl; [reflexivity|].
  destruct (str_eqb k0 k); [discriminate|].
  intros H. rewrite (IH H). reflexivity.
Qed.

Lemma dict_keys_app {V} (a b : pydict V) :
  dict_keys (a ++ b) = dict_keys a ++ dict_keys b.
Proof. apply map_app. Qed.

(** On distinct keys, a comprehension with a condition on the key is a
    filter that keeps the order. *)
Lemma dict_comp_from_filter {V} (p : pystr -> bool) (d acc : pydict V) :
  NoDup (dict_keys acc ++ dict_keys d) ->
  dict_comp_from acc (fun k v => Ok (if p k then None else Some v)) d =
  Ok (acc ++ filter (fun kv => negb (p (fst kv))) d).
Proof.
  revert acc; induction d as [|[k v] d IH]; intros acc N; simpl.
  - rewrite app_nil_r. reflexivity.
  - destruct (p k); simpl.
    + apply IH. apply NoDup_remove_1 in N. exact N.
    + assert (F : dict_mem acc k = false).
      { destruct (dict_mem acc k) eqn:E; [|reflexivity].
        apply dict_mem_keys in E. apply NoDup_remove_2 in N.
        exfalso; apply N. apply in_or_app; auto. }
      rewrite (dict_set_fresh acc k v F), IH.
      * rewrite <- app_assoc. reflexivity.
      * rewrite dict_keys_app, <- app_assoc. exact N.
Qed.

Lemma filter_unprocessed_wf (s0 : pydict json) (ut : pydict info) :
  dict_wf ut -> filter_unprocessed s0 ut = Ok (unprocessed s0 ut).
Proof.
  intros W. unfold filter_unprocessed, dict_comp, unprocessed.
  rewrite (dict_comp_from_filter (dict_mem s0) ut []); [reflexivity | exact W].
Qed.

Lemma str_eqb_sym (a b : pystr) : str_eqb a b = str_eqb b a.
Proof.
  destruct (str_eqb b a) eqn:E.
  - apply str_eqb_eq in E. subst. apply str_eqb_refl.
  - apply str_eqb_neq. intros ->. rewrite str_eqb_refl in E. discriminate.
Qed.

Lemma add_requirement_keys name (ut : pydict info) req :
  dict_keys (add_requirement name ut req) =
  if accepted (stripped_text req) && negb (dict_mem ut (stripped_text req))
  then dict_keys ut ++ [stripped_text req]
  else dict_keys ut.
Proof.
  unfold add_requirement, accepted. cbv zeta.
  change (strip (get_or (req_text req) [])) with (stripped_text req).
  destruct (negb (length (stripped_text req) =? 0)); simpl; [|reflexivity].
  destruct (dict_mem ut (stripped_text req)) eqn:M; simpl.
  - rewrite andb_false_r. reflexivity.
  - destruct (_ || _); simpl; [reflexivity|].
    rewrite (dict_set_fresh ut _ _ M), dict_keys_app. reflexivity.
Qed.

(** The keys of the loader's result, in their order. *)
Lemma load_requirements_keys (data : list badge) :
  dict_keys (load_requirements data) = kept_texts data.
Proof.
  rewrite load_requirements_flat. unfold kept_texts.
  assert (H : forall l (acc : pydict info) seen,
             (forall k, existsb (str_eqb k) seen = dict_mem acc k) ->
             dict_keys (fold_left (fun ut nr => add_requirement (fst nr) ut (snd nr))
                                  l acc) =
             dict_keys acc
             ++ first_occurrences seen
                  (filter accepted (map (fun nr => stripped_text (snd nr)) l))).
  { induction l as [|[name req] l IH]; intros acc seen S;
      cbn [fold_left map filter fst snd].
    - cbn [first_occurrences]. rewrite app_nil_r. reflexivity.
    - pose proof (add_requirement_keys name acc req) as K.
      pose proof (add_requirement_get name acc req) as G.
      destruct (accepted (stripped_text req)) eqn:A.
      + cbn [first_occurrences]. rewrite S.
        destruct (dict_mem acc (stripped_text req)) eqn:M; simpl in K.
        * rewrite (IH _ seen), K; [reflexivity|].
          intros k. rewrite S. unfold dict_mem. rewrite G.
          destruct (dict_get acc k) eqn:Gk; [reflexivity|].
          destruct (str_eqb (stripped_text req) k) eqn:Ek; [|reflexivity].
          apply str_eqb_eq in Ek. subst k. unfold dict_mem in M.
          rewrite Gk in M. discriminate.
        * rewrite (IH _ (stripped_text req :: seen)), K, <- app_assoc;
            [reflexivity|].
          intros k. cbn [existsb]. rewrite S. unfold dict_mem. rewrite G.
          rewrite (str_eqb_sym k).
          destruct (dict_get acc k) eqn:Gk; [apply orb_true_r|].
          rewrite orb_false_r.
          destruct (str_eqb (stripped_text req) k) eqn:Ek; [|reflexivity].
          apply str_eqb_eq in Ek. subst k. rewrite A. reflexivity.
      + simpl in K. rewrite (IH _ seen), K; [reflexivity|].
        intros k. rewrite S. unfold dict_mem. rewrite G.
        destruct (dict_get acc k) eqn:Gk; [reflexivity|].
        destruct (str_eqb (stripped_text req) k) eqn:Ek; [|reflexivity].
        apply str_eqb_eq in Ek. subst k. rewrite A. reflexivity. }
  rewrite (H _ [] []); [reflexivity|]. intros k. reflexivity.
Qed.

Lemma dict_keys_filter {V} (p : pystr -> bool) (d : pydict V) :
  dict_keys (filter (fun kv => p (fst kv)) d) = filter p (dict_keys d).
Proof.
  unfold dict_keys. induction d as [|[k v] d IH]; simpl; [reflexivity|].
  destruct (p k); simpl; rewrite IH; reflexivity.
Qed.

(** X2. The unique texts are, in this order, the stripped texts of the
    requirements of the dump in the order of the nested loops, the empty
    ones and the notes left out, each at its first occurrence only; the
    texts the driver takes up (line 147) are, in the same order, those of
    them that have no record in the checkpoint mapping: none is dropped,
    none is taken twice, and a text that has a record is never taken up
    again. *)
Theorem to_process_is_the_unprocessed :
  forall (summaries0 : pydict json) (data : list badge),
    dict_keys (load_requirements data) = kept_texts data
    /\ filter_unprocessed summaries0 (load_requirements data) =
       Ok (unprocessed summaries0 (load_requirements data))
    /\ dict_keys (unprocessed summaries0 (load_requirements data)) =
       filter (fun k => negb (dict_mem summaries0 k)) (kept_texts data)
    /\ NoDup (dict_keys (unprocessed summaries0 (load_requirements data)))
    /\ (forall k,
           In k (dict_keys (unprocessed summaries0 (load_requirements data)))
           <-> provenance data k <> None /\ dict_get summaries0 k = None).
Proof.
  intros s0 data. pose proof (load_requirements_wf data) as W.
  split; [apply load_requirements_keys|].
  split; [apply filter_unprocessed_wf; exact W|].
  split.
  { unfold unprocessed.
    rewrite (dict_keys_filter (fun k => negb (dict_mem s0 k))).
    rewrite load_requirements_keys. reflexivity. }
  destruct (filter_unprocessed_spec s0 (load_requirements data))
    as (tp & Htp & Hk).
  rewrite (filter_unprocessed_wf _ _ W) in Htp. injection Htp as <-.
  split.
  - unfold unprocessed, dict_keys.
    assert (H : forall (l : pydict info) (f : pystr * info -> bool),
               NoDup (map fst l) -> NoDup (map fst (filter f l))).
    { induction l as [|x l IH]; intros f N; simpl; [constructor|].
      inversion N as [|? ? Hn Hd]; subst.
      destruct (f x); simpl; [|auto].
      constructor; [|auto]. intros Hin. apply Hn.
      apply in_map_iff in Hin as (y & Hy & Hin).
      apply filter_In in Hin as [Hin _].
      rewrite <- Hy. apply in_map. exact Hin. }
    apply H. exact W.
  - intros k. rewrite Hk, <- load_requirements_get.
    rewrite <- dict_mem_keys. unfold dict_mem.
    destruct (dict_get (load_requirements data) k);
      destruct (dict_get s0 k); split; intros [H1 H2];
      try discriminate; try congruence; split; congruence.
Qed.

Section Counts.

Variable json_loads : pystr -> res json.
Variable cl : client.

Lemma generate_summary_requests n text b num :
  snd (generate_summary json_loads cl n text b num) =
  if length text <=? MAX_SUMMARY_LENGTH then n else S n.
Proof.
  unfold generate_summary.
  destruct (length text <=? MAX_SUMMARY_LENGTH); [reflexivity|].
  destruct (attempt json_loads cl n _); reflexivity.
Qed.

Lemma process_unprocessed (ut : pydict info) (h : history) :
  dict_wf ut ->
  process json_loads cl ut h =
  match unprocessed (summaries (now h)) ut with
  | [] => (Ok tt, h)
  | items => (for_each items (loop_body json_loads cl) ;;; save_checkpoint) h
  end.
Proof.
  intros W. destruct (process_unfold json_loads cl ut h) as (tp & Htp & _ & ->).
  rewrite (filter_unprocessed_wf _ _ W) in Htp. injection Htp as <-.
  destruct (unprocessed (summaries (now h)) ut); reflexivity.
Qed.

(** The counters after the loop: one item counted per iteration begun, one
    request per long text. *)
Lemma for_each_counts (items : pydict info) (h : history) r h' :
  for_each items (loop_body json_loads cl) h = (r, h') ->
  processed (now h') <= processed (now h) + length items
  /\ requests (now h') <= requests (now h) + length (long_items items)
  /\ (r = Ok tt ->
      processed (now h') = processed (now h) + length items
      /\ requests (now h') = requests (now h) + length (long_items items)).
Proof.
  revert h; induction items as [|[text inf] items IH]; intros h;
    cbn [for_each].
  - unfold ret. intros [= <- <-]. simpl. lia.
  - unfold bind_prog.
    destruct (loop_body json_loads cl (text, inf) h) as [r1 h1] eqn:E.
    destruct (loop_body_result json_loads cl text inf h r1 h1 E)
      as (_ & Hr & Hp & _).
    rewrite generate_summary_requests in Hr.
    assert (L : length (long_items ((text, inf) :: items)) =
                (if length text <=? MAX_SUMMARY_LENGTH then 0 else 1)
                + length (long_items items)).
    { unfold long_items. simpl filter.
      destruct (length text <=? MAX_SUMMARY_LENGTH); reflexivity. }
    rewrite L. simpl length.
    destruct r1 as [[]|e].
    + intros H. destruct (IH h1 H) as (A & B & C).
      destruct (length text <=? MAX_SUMMARY_LENGTH);
        (repeat split; try lia;
         match goal with X : r = Ok tt |- _ => destruct (C X); lia end).
    + intros [= <- <-].
      destruct (length text <=? MAX_SUMMARY_LENGTH);
        (repeat split; try lia; discriminate).
Qed.

End Counts.

Lemma main_outcome_inv json_loads env :
  match main json_loads env with
  | SysExit c => c = 1 /\ api_key_set env = false
  | Crashed e h =>
      api_key_set env = true
      /\ exists r,
          process json_loads (service env) (load_requirements (INPUT_FILE env))
                  {| now := initial_state env; earlier := [] |} = (r, h)
          /\ (r = Raise e
              \/ (r = Ok tt
                  /\ build_output (today env) (summaries (now h)) = Raise e))
  | Done out h =>
      api_key_set env = true
      /\ process json_loads (service env) (load_requirements (INPUT_FILE env))
                 {| now := initial_state env; earlier := [] |} = (Ok tt, h)
      /\ build_output (today env) (summaries (now h)) = Ok out
  end.
Proof.
  unfold main. destruct (api_key_set env); simpl; [|auto].
  destruct (process _ _ _ _) as [[[]|e] h1] eqn:Ep.
  - destruct (build_output _ _) as [o|e] eqn:Eb; eauto 10.
  - eauto 10.
Qed.

Lemma process_counts json_loads cl (ut : pydict info) (h : history) r h' :
  dict_wf ut ->
  process json_loads cl ut h = (r, h') ->
  let items := unprocessed (summaries (now h)) ut in
  processed (now h') <= processed (now h) + length items
  /\ requests (now h') <= requests (now h) + length (long_items items)
  /\ (r = Ok tt ->
      processed (now h') = processed (now h) + length items
      /\ requests (now h') = requests (now h) + length (long_items items)).
Proof.
  intros W. rewrite (process_unprocessed json_loads cl ut h W). intros E items.
  subst items. destruct (unprocessed (summaries (now h)) ut) as [|it tp] eqn:U.
  - injection E as <- <-. unfold long_items. simpl. lia.
  - unfold bind_prog in E.
    destruct (for_each (it :: tp) (loop_body json_loads cl) h) as [r1 h1] eqn:F.
    pose proof (for_each_counts json_loads cl (it :: tp) h r1 h1 F) as (A & B & C).
    destruct r1 as [[]|e].
    + unfold save_checkpoint, modify in E. injection E as <- <-.
      cbn [now processed requests].
      destruct (C eq_refl). repeat split; lia.
    + injection E as <- <-. repeat split; try assumption; discriminate.
Qed.

(** X3. A run that writes its output has counted exactly the texts it
    took up, and has sent exactly one request for each of them that has
    more than 40 characters: none for a short text, none for a text that
    had a record, no second request after a failure.  A run that ends on
    an uncaught exception has counted and requested no more than that. *)
Theorem one_request_per_long_unprocessed_text :
  forall (json_loads : pystr -> res json) (env : environment),
    let items := unprocessed (load_checkpoint (checkpoint env))
                             (load_requirements (INPUT_FILE env)) in
    (forall out h,
        main json_loads env = Done out h ->
        processed (now h) = length items
        /\ requests (now h) = length (long_items items))
    /\ (forall e h,
           main json_loads env = Crashed e h ->
           processed (now h) <= length items
           /\ requests (now h) <= length (long_items items)).
Proof.
  intros json_loads env items.
  pose proof (main_outcome_inv json_loads env) as M.
  pose proof (load_requirements_wf (INPUT_FILE env)) as W.
  split.
  - intros out h E. rewrite E in M. destruct M as (_ & P & _).
    destruct (process_counts _ _ _ _ _ _ W P) as (_ & _ & C).
    destruct (C eq_refl) as [C1 C2]. simpl in C1, C2. auto.
  - intros e h E. rewrite E in M. destruct M as (_ & r & P & _).
    destruct (process_counts _ _ _ _ _ _ W P) as (A & B & _).
    simpl in A, B. auto.
Qed.

(** A run on the three texts of the example dump with the bowline text in
    the checkpoint: two texts are taken up, one of them long. *)
Lemma one_request_per_long_unprocessed_text_witness :
  exists out h,
    main JsonDecoder.json_loads
         (env_with (Some partial_checkpoint) (u "2025-01-01") unreachable)
    = Done out h
    /\ processed (now h) = 2 /\ requests (now h) = 1.
Proof.
  assert (E : exists out h,
             main JsonDecoder.json_loads
                  (env_with (Some partial_checkpoint) (u "2025-01-01") unreachable)
             = Done out h).
  { do 2 eexists. vm_compute. reflexivity. }
  destruct E as (out & h & E). exists out, h. split; [exact E|].
  exact (proj1 (one_request_per_long_unprocessed_text JsonDecoder.json_loads
                  (env_with (Some partial_checkpoint) (u "2025-01-01") unreachable))
               out h E).
Defined.

(* ------------------------------------------------------------------ *)
(** * How far the checkpoint file lags behind *)

Lemma filter_keys_NoDup {V} (f : pystr * V -> bool) (d : pydict V) :
  dict_wf d -> dict_wf (filter f d).
Proof.
  unfold dict_wf, dict_keys. induction d as [|x d IH]; intros N; simpl.
  - constructor.
  - inversion N as [|? ? Hn Hd]; subst.
    destruct (f x); simpl; [|auto].
    constructor; [|auto]. intros Hin. apply Hn.
    apply in_map_iff in Hin as (y & Hy & Hin).
    apply filter_In in Hin as [Hin _].
    rewrite <- Hy. apply in_map. exact Hin.
Qed.

Lemma unprocessed_fresh (s0 : pydict json) (ut : pydict info) k :
  In k (dict_keys (unprocessed s0 ut)) -> dict_mem s0 k = false.
Proof.
  unfold unprocessed, dict_keys. intros H.
  apply in_map_iff in H as ([k' i] & <- & Hin).
  apply filter_In in Hin as [_ Hf]. simpl in *.
  destruct (dict_mem s0 k'); [discriminate | reflexivity].
Qed.

Section Batches.

Variable json_loads : pystr -> res json.
Variable cl : client.

(** The file after one iteration: saved when the iteration ends normally
    on a multiple of [BATCH_SIZE], untouched otherwise. *)
Lemma loop_body_file (text : pystr) (inf : info) (h : history) r h' :
  loop_body json_loads cl (text, inf) h = (r, h') ->
  CHECKPOINT_FILE (now h') =
  match r with
  | Ok _ =>
      if (processed (now h) + 1) mod BATCH_SIZE =? 0
      then Some (summaries (now h')) else CHECKPOINT_FILE (now h)
  | Raise _ => CHECKPOINT_FILE (now h)
  end.
Proof.
  destruct (generate_summary_dict json_loads cl (requests (now h)) text
              (info_badge inf) (info_number inf)) as [d Hd].
  unfold loop_body, call_generate_summary, save_checkpoint, bind_prog, gets,
    modify, lift, ret.
  cbn [now earlier summaries flagged processed CHECKPOINT_FILE requests].
  destruct (generate_summary json_loads cl (requests (now h)) text
              (info_badge inf) (info_number inf)) as [result n'].
  simpl in Hd; subst result.
  cbn [now earlier summaries flagged processed CHECKPOINT_FILE requests fst snd].
  destruct (summary <- py_getitem (JDict d) (u "summary");;
            py_slice_to 50 summary) as [y|e] eqn:Hp.
  2:{ intros [= <- <-]. reflexivity. }
  assert (Hs : exists x, dict_get d (u "summary") = Some x).
  { apply printable_dict. unfold printable. rewrite Hp; reflexivity. }
  destruct Hs as [x Hx].
  cbn [py_get py_getitem]. rewrite Hx.
  destruct (truthy (match dict_get d (u "flag") with
                    | Some x0 => x0 | None => JNull end)) eqn:Ht.
  - destruct (truthy_flag_present d Ht) as [fl [Hf _]]. rewrite Hf.
    cbn [now earlier summaries flagged processed CHECKPOINT_FILE requests].
    destruct ((processed (now h) + 1) mod BATCH_SIZE =? 0);
      intros [= <- <-]; reflexivity.
  - cbn [now earlier summaries flagged processed CHECKPOINT_FILE requests].
    destruct ((processed (now h) + 1) mod BATCH_SIZE =? 0);
      intros [= <- <-]; reflexivity.
Qed.

Lemma next_mod (p : nat) :
  (p + 1) mod BATCH_SIZE <> 0 ->
  (p + 1) mod BATCH_SIZE = p mod BATCH_SIZE + 1.
Proof.
  unfold BATCH_SIZE. intros H.
  pose proof (Nat.mod_upper_bound p 50 ltac:(discriminate)) as U.
  rewrite Nat.Div0.add_mod in * by discriminate.
  change (1 mod 50) with 1 in *.
  destruct (Nat.eq_dec (p mod 50 + 1) 50) as [E|E].
  - rewrite E in H. exfalso. apply H. reflexivity.
  - apply Nat.mod_small. lia.
Qed.

Lemma loop_body_batch (text : pystr) (inf : info) (h : history) r h' :
  loop_body json_loads cl (text, inf) h = (r, h') ->
  dict_mem (summaries (now h)) text = false ->
  batch_inv h ->
  Forall at_most_a_batch_unsaved (states h) ->
  Forall at_most_a_batch_unsaved (states h') /\ (r = Ok tt -> batch_inv h').
Proof.
  intros E Fr (extra & Hs & Hl) Fh.
  pose proof (loop_body_file text inf h r h' E) as Hf.
  destruct (loop_body_result json_loads cl text inf h r h' E)
    as (Hs' & _ & Hp & _ & new & Hn & Fn).
  rewrite (dict_set_fresh _ _ _ Fr) in Hs', Fn.
  assert (Hle : length extra < BATCH_SIZE).
  { rewrite Hl. apply Nat.mod_upper_bound. discriminate. }
  split.
  - rewrite Hn. apply Forall_app; split; [|exact Fh].
    eapply Forall_impl; [|exact Fn].
    intros x [[Hx Hy]|[[Hx Hy]|[Hx Hy]]]; unfold at_most_a_batch_unsaved;
      rewrite Hx, Hy.
    + exists extra. split; [exact Hs | apply Nat.lt_le_incl; exact Hle].
    + eexists (extra ++ [_]). rewrite Hs, <- app_assoc. split; [reflexivity|].
      rewrite length_app. simpl length. rewrite Nat.add_1_r. exact Hle.
    + exists []. rewrite app_nil_r. split; [reflexivity | apply Nat.le_0_l].
  - intros ->. unfold batch_inv. rewrite Hf, Hp, Hs'.
    replace (S (processed (now h))) with (processed (now h) + 1)
      by apply Nat.add_1_r.
    destruct ((processed (now h) + 1) mod BATCH_SIZE =? 0) eqn:M.
    + apply Nat.eqb_eq in M. exists []. rewrite M, app_nil_r. auto.
    + apply Nat.eqb_neq in M. eexists (extra ++ [_]).
      rewrite Hs, <- app_assoc. split; [reflexivity|].
      rewrite length_app, (next_mod _ M), Hl. reflexivity.
Qed.

Lemma for_each_batch (items : pydict info) (h : history) :
  dict_wf items ->
  (forall k, In k (dict_keys items) -> dict_mem (summaries (now h)) k = false) ->
  batch_inv h ->
  Forall at_most_a_batch_unsaved (states h) ->
  Forall at_most_a_batch_unsaved
         (states (snd (for_each items (loop_body json_loads cl) h))).
Proof.
  unfold dict_wf.
  revert h; induction items as [|[text inf] items IH]; intros h W Fr J Fh;
    cbn [for_each].
  - exact Fh.
  - unfold bind_prog.
    destruct (loop_body json_loads cl (text, inf) h) as [r h1] eqn:E.
    destruct (loop_body_batch text inf h r h1 E
                (Fr text (or_introl eq_refl)) J Fh) as [F1 J1].
    destruct (loop_body_result json_loads cl text inf h r h1 E) as (Hs & _).
    inversion W as [|? ? Wn Wd]; subst.
    destruct r as [[]|e]; [|exact F1].
    apply IH; auto.
    intros k Hk. rewrite Hs, dict_mem_set.
    rewrite (Fr k (or_intror Hk)), orb_false_r.
    apply str_eqb_neq. intros ->. contradiction.
Qed.

End Batches.

(** X4. At every state of a run, however it ends, a save being one step
    (the states are those between two statements of the driver, none of
    them inside the rewriting of the file on lines 66-67), the mapping
    [summaries] is what the checkpoint file holds followed by at most 50
    records. *)
Theorem at_most_one_batch_is_unsaved :
  forall (json_loads : pystr -> res json) (env : environment) (st : state),
    In st (run_states (main json_loads env)) ->
    at_most_a_batch_unsaved st.
Proof.
  intros json_loads env st Hin.
  destruct (run_states_main json_loads env) as [E|E]; rewrite E in Hin;
    [destruct Hin|].
  revert st Hin. apply Forall_forall.
  set (h0 := {| now := initial_state env; earlier := [] |}).
  set (ut := load_requirements (INPUT_FILE env)).
  assert (F0 : Forall at_most_a_batch_unsaved (states h0)).
  { repeat constructor. exists []. simpl. rewrite app_nil_r.
    split; [reflexivity | unfold BATCH_SIZE; lia]. }
  rewrite (process_unprocessed json_loads (service env) ut h0
             (load_requirements_wf _)).
  destruct (unprocessed (summaries (now h0)) ut) as [|it tp] eqn:U; [exact F0|].
  pose proof (for_each_batch json_loads (service env) (it :: tp) h0) as FB.
  rewrite <- U in FB.
  specialize (FB (filter_keys_NoDup _ _ (load_requirements_wf _))
                 (unprocessed_fresh _ _)).
  rewrite U in FB. unfold bind_prog.
  destruct (for_each (it :: tp) (loop_body json_loads (service env)) h0)
    as [[[]|e] h1]; simpl snd in *.
  - unfold save_checkpoint, modify, states at 1. simpl.
    constructor.
    + exists []. simpl. rewrite app_nil_r.
      split; [reflexivity | unfold BATCH_SIZE; lia].
    + apply FB; [|exact F0]. exists []. simpl. rewrite app_nil_r. auto.
  - apply FB; [|exact F0]. exists []. simpl. rewrite app_nil_r. auto.
Qed.

(** A run of the example dump that ends on line 167 after one item: the
    mapping has one record and there is no file. *)
Lemma at_most_one_batch_is_unsaved_witness :
  at_most_a_batch_unsaved
    (hd (now fresh)
        (run_states (main JsonDecoder.json_loads
                          (env_with None (u "2025-01-01") bare_object)))).
Proof.
  apply (at_most_one_batch_is_unsaved JsonDecoder.json_loads
           (env_with None (u "2025-01-01") bare_object)).
  vm_compute. left. reflexivity.
Defined.

(* ------------------------------------------------------------------ *)
(** * The loop as a function of the items *)

Section Refinement.

Variable json_loads : pystr -> res json.
Variable cl : client.

(** The report after one iteration that ends normally. *)
Lemma loop_body_flagged (text : pystr) (inf : info) (h h' : history) :
  loop_body json_loads cl (text, inf) h = (Ok tt, h') ->
  flagged (now h') =
  flagged (now h)
  ++ flagged_entry (text, inf,
                    fst (generate_summary json_loads cl (requests (now h)) text
                           (info_badge inf) (info_number inf))).
Proof.
  destruct (generate_summary_dict json_loads cl (requests (now h)) text
              (info_badge inf) (info_number inf)) as [d Hd].
  unfold loop_body, call_generate_summary, save_checkpoint, bind_prog, gets,
    modify, lift, ret, flagged_entry.
  cbn [now earlier summaries flagged processed CHECKPOINT_FILE requests].
  destruct (generate_summary json_loads cl (requests (now h)) text
              (info_badge inf) (info_number inf)) as [result n'].
  simpl in Hd; subst result.
  cbn [now earlier summaries flagged processed CHECKPOINT_FILE requests fst snd].
  destruct (summary <- py_getitem (JDict d) (u "summary");;
            py_slice_to 50 summary) as [y|e] eqn:Hp; [|discriminate].
  assert (Hs : exists x, dict_get d (u "summary") = Some x).
  { apply printable_dict. unfold printable. rewrite Hp; reflexivity. }
  destruct Hs as [x Hx].
  cbn [py_get py_getitem]. rewrite Hx.
  destruct (dict_get d (u "flag")) as [fl|] eqn:Hf.
  - destruct (truthy fl);
      cbn [now earlier summaries flagged processed CHECKPOINT_FILE requests];
      destruct ((processed (now h) + 1) mod BATCH_SIZE =? 0);
      intros [= <-]; cbn; rewrite ?app_nil_r; reflexivity.
  - cbn [truthy].
    cbn [now earlier summaries flagged processed CHECKPOINT_FILE requests].
    destruct ((processed (now h) + 1) mod BATCH_SIZE =? 0);
      intros [= <-]; cbn; rewrite ?app_nil_r; reflexivity.
Qed.

Lemma for_each_generated (items : pydict info) (h h' : history) :
  dict_wf items ->
  (forall k, In k (dict_keys items) -> dict_mem (summaries (now h)) k = false) ->
  for_each items (loop_body json_loads cl) h = (Ok tt, h') ->
  let g := generated json_loads cl (requests (now h)) items in
  summaries (now h') = summaries (now h) ++ map record_of g
  /\ flagged (now h') = flagged (now h) ++ flat_map flagged_entry g
  /\ Forall (fun x => printable (snd x) = true) g.
Proof.
  unfold dict_wf.
  revert h; induction items as [|[text inf] items IH]; intros h W Fr;
    cbn [for_each generated].
  - unfold ret. intros [= <-]. simpl. rewrite !app_nil_r. auto.
  - unfold bind_prog.
    destruct (loop_body json_loads cl (text, inf) h) as [r h1] eqn:E.
    destruct (loop_body_result json_loads cl text inf h r h1 E)
      as (Hs & Hr & _ & Hp & _).
    destruct r as [[]|e]; [|discriminate].
    pose proof (loop_body_flagged text inf h h1 E) as Hfl.
    rewrite (dict_set_fresh _ _ _ (Fr text (or_introl eq_refl))) in Hs.
    destruct (generate_summary json_loads cl (requests (now h)) text
                (info_badge inf) (info_number inf)) as [result n'] eqn:G.
    simpl fst in *. simpl snd in *.
    inversion W as [|? ? Wn Wd]; subst.
    intros F. destruct (IH h1 Wd) with (2 := F) as (A & B & C).
    { intros k Hk. rewrite Hs.
      destruct (dict_mem (summaries (now h) ++ [(text, result)]) k) eqn:D;
        [|reflexivity].
      exfalso. apply dict_mem_keys in D. rewrite dict_keys_app in D.
      apply in_app_or in D as [D|[D|[]]].
      - apply dict_mem_keys in D.
        rewrite (Fr k (or_intror Hk)) in D. discriminate.
      - simpl in D. subst k. apply Wn. exact Hk. }
    cbn [map flat_map].
    rewrite A, B, Hs, Hfl, <- !app_assoc. repeat split.
    constructor; [|exact C]. simpl. apply Hp. reflexivity.
Qed.

End Refinement.

(** The mapping after a run that writes its output. *)
Lemma final_mapping_records :
  forall (json_loads : pystr -> res json) (env : environment)
         (out : output) (h : history),
    main json_loads env = Done out h ->
    let g := generated json_loads (service env) 0
               (unprocessed (load_checkpoint (checkpoint env))
                            (load_requirements (INPUT_FILE env))) in
    summaries (now h) = load_checkpoint (checkpoint env) ++ map record_of g
    /\ Forall (fun x => printable (snd x) = true) g.
Proof.
  intros json_loads env out h E g. subst g.
  pose proof (main_outcome_inv json_loads env) as M. rewrite E in M.
  destruct M as (_ & P & _).
  rewrite (process_unprocessed _ _ _ _ (load_requirements_wf _)) in P.
  cbn [now summaries initial_state] in P.
  destruct (unprocessed _ _) as [|it tp] eqn:U.
  - injection P as <-. simpl. rewrite app_nil_r. auto.
  - unfold bind_prog in P.
    destruct (for_each (it :: tp) _ _) as [[[]|e] h1] eqn:F; [|discriminate].
    unfold save_checkpoint, modify in P. injection P as <-.
    cbn [now summaries].
    rewrite <- U in F.
    destruct (for_each_generated _ _ _ _ _
                (filter_keys_NoDup _ _ (load_requirements_wf _))
                (unprocessed_fresh _ _) F) as (A & _ & C).
    cbn [now summaries requests initial_state] in A, C.
    unfold unprocessed in U. rewrite U in A, C. auto.
Qed.

(** X5. A run that writes its output ends with the mapping it loaded
    followed, in the order of the dump, by one record for each text it took
    up: the record [generate_summary] returned for that text, requests
    being numbered in that order.  No record is overwritten, none is
    reordered, and every record added evaluates on line 167. *)
Theorem final_mapping_is_loaded_then_generated :
  forall (json_loads : pystr -> res json) (env : environment)
         (out : output) (h : history),
    main json_loads env = Done out h ->
    let g := generated json_loads (service env) 0
               (unprocessed (load_checkpoint (checkpoint env))
                            (load_requirements (INPUT_FILE env))) in
    summaries (now h) = load_checkpoint (checkpoint env) ++ map record_of g
    /\ Forall (fun x => printable (snd x) = true) g.
Proof.
  intros json_loads env out h E. exact (final_mapping_records json_loads env out h E).
Qed.

(** X6. After a run that writes its output, the flagged-items report
    lists, in the order of the dump, exactly the texts taken up in this run
    whose record has a flag that is true, each with the summary and the
    flag of its record, the name of its badge and its number, and its
    text cut to 100 characters followed by "..." when it is longer. *)
Theorem report_lists_the_true_flags_of_the_run :
  forall (json_loads : pystr -> res json) (env : environment)
         (out : output) (h : history),
    main json_loads env = Done out h ->
    flagged (now h) =
    flat_map flagged_entry
             (generated json_loads (service env) 0
                (unprocessed (load_checkpoint (checkpoint env))
                             (load_requirements (INPUT_FILE env)))).
Proof.
  intros json_loads env out h E.
  pose proof (main_outcome_inv json_loads env) as M. rewrite E in M.
  destruct M as (_ & P & _).
  rewrite (process_unprocessed _ _ _ _ (load_requirements_wf _)) in P.
  cbn [now summaries initial_state] in P.
  destruct (unprocessed _ _) as [|it tp] eqn:U.
  - injection P as <-. reflexivity.
  - unfold bind_prog in P.
    destruct (for_each (it :: tp) _ _) as [[[]|e] h1] eqn:F; [|discriminate].
    unfold save_checkpoint, modify in P. injection P as <-.
    cbn [now flagged].
    rewrite <- U in F.
    destruct (for_each_generated _ _ _ _ _
                (filter_keys_NoDup _ _ (load_requirements_wf _))
                (unprocessed_fresh _ _) F) as (_ & B & _).
    cbn [now summaries requests flagged initial_state] in B.
    unfold unprocessed in U. rewrite U in B. exact B.
Qed.

(** A run of the example dump resumed from the checkpoint that has the
    bowline text, with a service that cannot be reached. *)
Lemma final_mapping_is_loaded_then_generated_witness :
  exists out h,
    main JsonDecoder.json_loads
         (env_with (Some partial_checkpoint) (u "2025-01-01") unreachable)
    = Done out h
    /\ summaries (now h) =
       partial_checkpoint
       ++ [(square_knot, JDict [(u "summary", JStr square_knot);
                                (u "flag", JNull)]);
           (hike, JDict [(u "summary", JStr (firstn 39 hike ++ [ELLIPSIS]));
                         (u "flag", JStr (u "API error: Connection error."))])].
Proof.
  assert (E : exists out h,
             main JsonDecoder.json_loads
                  (env_with (Some partial_checkpoint) (u "2025-01-01") unreachable)
             = Done out h).
  { do 2 eexists. vm_compute. reflexivity. }
  destruct E as (out & h & E). exists out, h. split; [exact E|].
  exact (proj1 (final_mapping_is_loaded_then_generated JsonDecoder.json_loads
                  (env_with (Some partial_checkpoint) (u "2025-01-01") unreachable)
                  out h E)).
Defined.

(** The same run: the report has one entry, for the hike text. *)
Lemma report_lists_the_true_flags_of_the_run_witness :
  exists out h,
    main JsonDecoder.json_loads
         (env_with (Some partial_checkpoint) (u "2025-01-01") unreachable)
    = Done out h
    /\ flagged (now h) =
       [{| fl_badge := u "Hiking"; fl_number := u "3"; fl_original := hike;
           fl_summary := JStr (firstn 39 hike ++ [ELLIPSIS]);
           fl_flag := JStr (u "API error: Connection error.") |}].
Proof.
  assert (E : exists out h,
             main JsonDecoder.json_loads
                  (env_with (Some partial_checkpoint) (u "2025-01-01") unreachable)
             = Done out h).
  { do 2 eexists. vm_compute. reflexivity. }
  destruct E as (out & h & E). exists out, h. split; [exact E|].
  exact (report_lists_the_true_flags_of_the_run JsonDecoder.json_loads
           (env_with (Some partial_checkpoint) (u "2025-01-01") unreachable)
           out h E).
Defined.

(* ------------------------------------------------------------------ *)
(** * What the output covers *)

(** X7. When a run writes its output, the summaries mapping of the output
    has exactly the keys of the final mapping [summaries], among them
    every text the loader keeps from the dump; and the checkpoint file the
    run leaves holds exactly that final mapping. *)
Theorem output_covers_every_text :
  forall (json_loads : pystr -> res json) (env : environment)
         (out : output) (h : history),
    main json_loads env = Done out h ->
    (forall k, In k (dict_keys (out_summaries out))
               <-> In k (dict_keys (summaries (now h))))
    /\ (forall k, provenance (INPUT_FILE env) k <> None ->
                  In k (dict_keys (out_summaries out)))
    /\ load_checkpoint (CHECKPOINT_FILE (now h)) = summaries (now h).
Proof.
  intros json_loads env out h E.
  pose proof (main_outcome_inv json_loads env) as M. rewrite E in M.
  destruct M as (_ & P & B).
  destruct (process_complete _ _ _ _ _ P) as [Hall Hfile].
  rewrite build_output_unfold in B. unfold dict_comp in B.
  destruct (dict_comp_from [] summary_of (summaries (now h))) as [ss|] eqn:Hss;
    simpl in B; [|discriminate].
  destruct (dict_comp_from [] flag_of (summaries (now h))) as [fs|] eqn:Hfs;
    simpl in B; [|discriminate].
  injection B as <-. cbn [out_summaries].
  assert (K : forall k, In k (dict_keys ss) <-> In k (dict_keys (summaries (now h)))).
  { intros k. rewrite (dict_comp_from_keys summary_of _ _ _ Hss k). split.
    - intros [[]|(v & b & Hin & _)]. apply (in_map fst) in Hin. exact Hin.
    - intros Hin. right.
      apply in_map_iff in Hin as ([k' v] & Hk & Hin). simpl in Hk; subst k'.
      destruct (dict_comp_from_each summary_of _ _ _ Hss k v Hin) as [o Ho].
      exists v. unfold summary_of in *.
      destruct (py_getitem v (u "summary")) as [y|]; simpl in *; [|discriminate].
      exists y. auto. }
  split; [exact K|]. split.
  - intros k Hk. apply K. apply dict_mem_keys. apply Hall.
    rewrite <- load_requirements_get in Hk.
    apply dict_mem_keys. unfold dict_mem.
    destruct (dict_get (load_requirements (INPUT_FILE env)) k);
      [reflexivity | contradiction].
  - destruct Hfile as [ -> | -> ]; reflexivity.
Qed.

Lemma output_covers_every_text_witness :
  exists out h,
    main JsonDecoder.json_loads
         (env_with (Some partial_checkpoint) (u "2025-01-01") unreachable)
    = Done out h
    /\ (forall k, In k (dict_keys (out_summaries out))
                  <-> In k (dict_keys (summaries (now h))))
    /\ (forall k, provenance dump k <> None ->
                  In k (dict_keys (out_summaries out)))
    /\ load_checkpoint (CHECKPOINT_FILE (now h)) = summaries (now h).
Proof.
  assert (E : exists out h,
             main JsonDecoder.json_loads
                  (env_with (Some partial_checkpoint) (u "2025-01-01") unreachable)
             = Done out h).
  { do 2 eexists. vm_compute. reflexivity. }
  destruct E as (out & h & E). exists out, h. split; [exact E|].
  exact (output_covers_every_text JsonDecoder.json_loads
           (env_with (Some partial_checkpoint) (u "2025-01-01") unreachable)
           out h E).
Defined.

Lemma main_done_wf json_loads env out h :
  main json_loads env = Done out h ->
  dict_wf (load_checkpoint (checkpoint env)) ->
  dict_wf (summaries (now h)).
Proof.
  intros E Hwf.
  pose proof (main_outcome_inv json_loads env) as M. rewrite E in M.
  destruct M as (_ & Hp & _).
  pose proof (process_inv json_loads (service env) (fun s _ => dict_wf s)
                (load_requirements (INPUT_FILE env))
                {| now := initial_state env; earlier := [] |}) as Hinv.
  rewrite Hp in Hinv. simpl snd in Hinv.
  assert (F : Forall (state_inv (fun s _ => dict_wf s)) (states h)).
  { apply Hinv; auto.
    - intros; apply dict_set_wf; assumption.
    - repeat constructor. exact Hwf. }
  inversion F; assumption.
Qed.

(** What the output has for a key whose record is an object. *)
Lemma build_output_lookup day (s : pydict json) out k d :
  build_output day s = Ok out ->
  dict_wf s ->
  dict_get s k = Some (JDict d) ->
  dict_get (out_summaries out) k = dict_get d (u "summary")
  /\ dict_get (out_flags out) k =
     match dict_get d (u "flag") with
     | Some fl => if truthy fl then Some fl else None
     | None => None
     end.
Proof.
  intros B W G.
  rewrite build_output_unfold in B. unfold dict_comp in B.
  destruct (dict_comp_from [] summary_of s) as [ss|] eqn:Hss;
    simpl in B; [|discriminate].
  destruct (dict_comp_from [] flag_of s) as [fs|] eqn:Hfs;
    simpl in B; [|discriminate].
  injection B as <-. cbn [out_summaries out_flags].
  pose proof (dict_get_In _ _ _ G) as Hin.
  assert (U : forall v, In (k, v) s -> v = JDict d).
  { intros v Hv. apply (dict_In_get _ _ _ W) in Hv. congruence. }
  split.
  - destruct (dict_comp_from_each summary_of _ _ _ Hss k _ Hin) as [o Ho].
    unfold summary_of in Ho. simpl in Ho.
    destruct (dict_get d (u "summary")) as [x|] eqn:Hx; [|discriminate].
    apply (dict_comp_from_get summary_of _ _ _ Hss W (fun _ _ => eq_refl)).
    right. exists (JDict d). split; [exact Hin|].
    apply summary_of_inv. eauto.
  - pose proof (flag_of_dict k d) as Hf.
    destruct (dict_get fs k) as [fl'|] eqn:Gf.
    + apply (dict_comp_from_get flag_of _ _ _ Hfs W (fun _ _ => eq_refl)) in Gf
        as [Gf|(v & Hv & Hfv)]; [discriminate|].
      rewrite (U v Hv) in Hfv. rewrite Hf in Hfv. injection Hfv as Hfv.
      symmetry. exact Hfv.
    + destruct (dict_get d (u "flag")) as [fl|]; [|reflexivity].
      destruct (truthy fl); [|reflexivity].
      assert (X : dict_get fs k = Some fl).
      { apply (dict_comp_from_get flag_of _ _ _ Hfs W (fun _ _ => eq_refl)).
        right. exists (JDict d). auto. }
      congruence.
Qed.

Lemma generated_In json_loads cl (items : pydict info) n0 k i :
  In (k, i) items ->
  exists n, In (k, i, result_of json_loads cl n (k, i))
               (generated json_loads cl n0 items).
Proof.
  revert n0; induction items as [|[text inf] items IH]; intros n0; simpl;
    [tauto|].
  destruct (generate_summary json_loads cl n0 text (info_badge inf)
              (info_number inf)) as [r n1] eqn:G.
  intros [[= -> ->]|Hin].
  - exists n0. left. unfold result_of. simpl. rewrite G. reflexivity.
  - destruct (IH n1 Hin) as [n Hn]. exists n. right. exact Hn.
Qed.

(** X8. When a run writes its output and the loaded checkpoint has distinct
    keys, every text of the dump of at most 40 characters that had no
    record in the checkpoint is exported as its own summary, and has no
    entry in the flags mapping. *)
Theorem short_texts_are_exported_verbatim :
  forall (json_loads : pystr -> res json) (env : environment)
         (out : output) (h : history) (k : pystr),
    main json_loads env = Done out h ->
    dict_wf (load_checkpoint (checkpoint env)) ->
    provenance (INPUT_FILE env) k <> None ->
    dict_get (load_checkpoint (checkpoint env)) k = None ->
    length k <= 40 ->
    dict_get (out_summaries out) k = Some (JStr k)
    /\ dict_get (out_flags out) k = None.
Proof.
  intros json_loads env out h k E Wcp Hk Hcp Hl.
  pose proof (main_done_wf _ _ _ _ E Wcp) as W.
  destruct (final_mapping_records json_loads env out h E) as [A _].
  pose proof (main_outcome_inv json_loads env) as M. rewrite E in M.
  destruct M as (_ & _ & B).
  assert (Hin : exists i, In (k, i) (unprocessed (load_checkpoint (checkpoint env))
                                       (load_requirements (INPUT_FILE env)))).
  { rewrite <- load_requirements_get in Hk.
    destruct (dict_get (load_requirements (INPUT_FILE env)) k) as [i|] eqn:G;
      [|contradiction].
    exists i. unfold unprocessed. apply filter_In. split.
    - apply dict_get_In. exact G.
    - simpl. unfold dict_mem. rewrite Hcp. reflexivity. }
  destruct Hin as [i Hin].
  destruct (generated_In json_loads (service env) _ 0 k i Hin) as [n Hn].
  unfold result_of in Hn. simpl fst in Hn. simpl snd in Hn.
  rewrite generate_summary_short in Hn by exact Hl. simpl fst in Hn.
  assert (G : dict_get (summaries (now h)) k = Some (short_record k)).
  { apply (dict_In_get _ _ _ W). rewrite A. apply in_or_app. right.
    apply (in_map record_of) in Hn. exact Hn. }
  destruct (build_output_lookup _ _ _ _ _ B W G) as [S1 S2].
  rewrite S1, S2. split; reflexivity.
Qed.

Lemma short_texts_are_exported_verbatim_witness :
  exists out h,
    main JsonDecoder.json_loads
         (env_with (Some partial_checkpoint) (u "2025-01-01") unreachable)
    = Done out h
    /\ dict_get (out_summaries out) square_knot = Some (JStr square_knot)
    /\ dict_get (out_flags out) square_knot = None.
Proof.
  assert (E : exists out h,
             main JsonDecoder.json_loads
                  (env_with (Some partial_checkpoint) (u "2025-01-01") unreachable)
             = Done out h).
  { do 2 eexists. vm_compute. reflexivity. }
  destruct E as (out & h & E). exists out, h. split; [exact E|].
  apply (short_texts_are_exported_verbatim JsonDecoder.json_loads
           (env_with (Some partial_checkpoint) (u "2025-01-01") unreachable)
           out h square_knot E).
  - unfold dict_wf. vm_compute. repeat constructor. simpl. tauto.
  - vm_compute. discriminate.
  - vm_compute. reflexivity.
  - vm_compute. repeat constructor.
Defined.

(* ------------------------------------------------------------------ *)
(** * Taking the reply out of its code block *)

Lemma startswith_nil (s : pystr) : startswith s [] = true.
Proof. destruct s; reflexivity. Qed.

Lemma startswith_app (p s : pystr) : startswith (p ++ s) p = true.
Proof.
  induction p as [|c p IH]; simpl; [apply startswith_nil|].
  rewrite N.eqb_refl. exact IH.
Qed.

Lemma startswith_other (c : N) (s : pystr) :
  c <> BACKTICK -> startswith (c :: s) FENCE = false.
Proof.
  intros Hc. unfold FENCE. cbn [startswith].
  apply N.eqb_neq in Hc. rewrite Hc. reflexivity.
Qed.

Lemma split_at_fence (rest cur : pystr) :
  split_from FENCE 0 cur (FENCE ++ rest) =
  rev cur :: split_from FENCE 0 [] rest.
Proof.
  change (FENCE ++ rest) with (BACKTICK :: (BACKTICK :: BACKTICK :: rest)).
  cbn [split_from].
  change (BACKTICK :: BACKTICK :: BACKTICK :: rest) with (FENCE ++ rest).
  rewrite startswith_app. reflexivity.
Qed.

Lemma split_until_fence (x rest cur : pystr) :
  no_backtick x ->
  split_from FENCE 0 cur (x ++ FENCE ++ rest) =
  (rev cur ++ x) :: split_from FENCE 0 [] rest.
Proof.
  unfold no_backtick. revert cur; induction x as [|c x IH]; intros cur N.
  - rewrite app_nil_r. apply split_at_fence.
  - inversion N as [|? ? Hc Hx]; subst.
    change ((c :: x) ++ FENCE ++ rest) with (c :: (x ++ FENCE ++ rest)).
    cbn [split_from].
    rewrite (startswith_other c _ Hc), (IH (c :: cur) Hx). simpl rev.
    rewrite <- app_assoc. reflexivity.
Qed.

Lemma split_no_fence (x cur : pystr) :
  no_backtick x -> split_from FENCE 0 cur x = [rev cur ++ x].
Proof.
  unfold no_backtick. revert cur; induction x as [|c x IH]; intros cur N.
  - simpl. rewrite app_nil_r. reflexivity.
  - inversion N as [|? ? Hc Hx]; subst. cbn [split_from].
    rewrite (startswith_other c _ Hc), (IH (c :: cur) Hx). simpl rev.
    rewrite <- app_assoc. reflexivity.
Qed.

(** X9. When the stripped reply opens with a fence of three backticks,
    and what follows up to the next fence has no backtick, the text handed
    to the decoder is what stands between the two fences, without a
    leading "json": whatever follows the closing fence is dropped. *)
Theorem fenced_reply_is_taken_out :
  forall raw inside rest : pystr,
    strip raw = FENCE ++ inside ++ FENCE ++ rest ->
    no_backtick inside ->
    unwrap_reply raw = untagged inside.
Proof.
  intros raw inside rest E N. unfold unwrap_reply, untagged. rewrite E.
  rewrite startswith_app. unfold split.
  rewrite split_at_fence, (split_until_fence inside rest [] N). reflexivity.
Qed.

(** The fenced reply of the examples: the decoder gets the object between
    two line ends. *)
Lemma fenced_reply_is_taken_out_witness :
  unwrap_reply long_reply =
  untagged (u "json" ++ nl ++ u "{" ++ quoted (u "summary") ++ u ": "
              ++ quoted long_summary ++ u ", " ++ quoted (u "flag")
              ++ u ": null}" ++ nl).
Proof.
  apply (fenced_reply_is_taken_out long_reply
           (u "json" ++ nl ++ u "{" ++ quoted (u "summary") ++ u ": "
              ++ quoted long_summary ++ u ", " ++ quoted (u "flag")
              ++ u ": null}" ++ nl) []).
  - vm_compute. reflexivity.
  - unfold no_backtick. vm_compute.
    repeat (constructor; [discriminate|]). constructor.
Defined.

(** X10. When the stripped reply opens with a fence that is never closed
    (no backtick follows it), everything after the fence goes to the
    decoder, without a leading "json"; and a stripped reply that does not
    open with a fence goes to the decoder as it is. *)
Theorem unclosed_or_absent_fence :
  forall raw : pystr,
    (forall inside, strip raw = FENCE ++ inside -> no_backtick inside ->
                    unwrap_reply raw = untagged inside)
    /\ (startswith (strip raw) FENCE = false -> unwrap_reply raw = strip raw).
Proof.
  intros raw. split.
  - intros inside E N. unfold unwrap_reply, untagged. rewrite E.
    rewrite startswith_app. unfold split.
    rewrite split_at_fence, (split_no_fence inside [] N). reflexivity.
  - intros H. unfold unwrap_reply. rewrite H. reflexivity.
Qed.

(** A reply that opens a code block and never closes it, and the bare
    reply of the empty object between blanks. *)
Lemma unclosed_or_absent_fence_witness :
  unwrap_reply (FENCE ++ u "json{}") = u "{}"
  /\ unwrap_reply (u "  {} ") = u "{}".
Proof.
  split.
  - apply (proj1 (unclosed_or_absent_fence (FENCE ++ u "json{}")) (u "json{}")).
    + vm_compute. reflexivity.
    + unfold no_backtick. vm_compute.
      repeat (constructor; [discriminate|]). constructor.
  - apply (proj2 (unclosed_or_absent_fence (u "  {} "))).
    vm_compute. reflexivity.
Defined.

(* ------------------------------------------------------------------ *)
(** * What the summarizer returns *)

(** X11. When the length validation of lines 111-120 accepts a decoded
    reply, the reply is an object and so is the record returned; every
    key of the reply is a key of the record, and every key other than
    "summary" and "flag" has the value the reply gave it. *)
Theorem validation_keeps_the_other_keys :
  forall v r : json,
    validate v = Ok r ->
    exists d d',
      v = JDict d /\ r = JDict d'
      /\ (forall k, dict_mem d k = true -> dict_mem d' k = true)
      /\ (forall k, k <> u "summary" -> k <> u "flag" ->
                    dict_get d' k = dict_get d k).
Proof.
  intros v r H. destruct (validate_cases v r H) as (d & -> & [ -> | C ]).
  - exists d, d. auto.
  - destruct C as (s & _ & _ & ->).
    exists d, (truncated_reply d s). repeat split.
    + intros k Hk. unfold truncated_reply.
      destruct (truthy _); repeat rewrite dict_mem_set; rewrite Hk;
        repeat rewrite orb_true_r; reflexivity.
    + intros k N1 N2. unfold truncated_reply.
      destruct (truthy _);
        repeat rewrite dict_get_set_other by congruence; reflexivity.
Qed.

(** A reply with a summary of 50 characters, a null flag and a third
    key. *)
Lemma validation_keeps_the_other_keys_witness :
  exists d d',
    JDict [(u "summary", JStr long_summary); (u "flag", JNull);
           (u "confidence", JInt 3)] = JDict d
    /\ JDict [(u "summary", JStr (firstn 39 long_summary ++ [ELLIPSIS]));
              (u "flag", JStr (u "auto-truncated"));
              (u "confidence", JInt 3)] = JDict d'
    /\ (forall k, dict_mem d k = true -> dict_mem d' k = true)
    /\ (forall k, k <> u "summary" -> k <> u "flag" ->
                  dict_get d' k = dict_get d k).
Proof.
  apply (validation_keeps_the_other_keys
           (JDict [(u "summary", JStr long_summary); (u "flag", JNull);
                   (u "confidence", JInt 3)])).
  vm_compute. reflexivity.
Defined.

(** X12. Whatever the service does, [generate_summary] returns a JSON
    object, and when the "summary" of that object is a string, the string
    has at most 40 characters. *)
Theorem returned_string_summary_at_most_40 :
  forall (json_loads : pystr -> res json) (cl : client) (n : nat)
         (text badge_name req_number : pystr),
    exists d,
      fst (generate_summary json_loads cl n text badge_name req_number) = JDict d
      /\ (forall s, dict_get d (u "summary") = Some (JStr s) -> length s <= 40).
Proof.
  intros json_loads cl n text b num. unfold generate_summary.
  destruct (length text <=? MAX_SUMMARY_LENGTH) eqn:E.
  - eexists. split; [reflexivity|]. intros s G.
    rewrite dict_get_here in G. injection G as <-. apply Nat.leb_le. exact E.
  - destruct (attempt json_loads cl n _) as [r|e] eqn:Ea; cbn [fst].
    + unfold attempt in Ea.
      destruct (cl n _) as [raw|]; simpl in Ea; [|discriminate].
      destruct (json_loads _) as [v|]; simpl in Ea; [|discriminate].
      destruct (validate_dict v r Ea) as [d ->].
      exists d. split; [reflexivity|]. intros s G.
      exact (validate_string_summary v d s Ea G).
    + eexists. split; [reflexivity|]. intros s G.
      rewrite dict_get_here in G. injection G as <-. apply truncation_short.
Qed.

(** The bowline text with the reply whose summary has 50 characters. *)
Lemma returned_string_summary_at_most_40_witness :
  exists d,
    fst (generate_summary JsonDecoder.json_loads verbose 0 bowline
                          (u "Pioneering") (u "1a")) = JDict d
    /\ (forall s, dict_get d (u "summary") = Some (JStr s) -> length s <= 40).
Proof.
  exact (returned_string_summary_at_most_40 JsonDecoder.json_loads verbose 0
           bowline (u "Pioneering") (u "1a")).
Defined.
